(** * yellowbrick.classifier: the score visualizers

    A shallow embedding of [yellowbrick/classifier.py].  The module holds
    one base class, [ClassificationScoreVisualizer], and three
    visualizers built on it: [ClassificationReport], [ROCAUC] and
    [ClassBalance].  Each method is a function in a small monad that
    threads the instance attributes and the pyplot state and that can
    raise; scikit-learn, pyplot and the classes of [yellowbrick/base.py]
    are an interface ([Libs]) the methods are written against. *)

From Stdlib Require Import ZArith QArith.
From stdpp Require Import base option list strings pretty.

Open Scope nat_scope.

(** ** Python dictionaries

    A [dict] keeps its items in insertion order; assigning to a key that
    is present replaces the value where it stands, and building a dict
    from a sequence of pairs assigns them from left to right. *)

Module PyDict.
Section dict.
Context {K V : Type} `{EqDecision K}.

Definition dict := list (K * V).

(** [d[k] = v] *)
Fixpoint dict_set (k : K) (v : V) (d : dict) : dict :=
  match d with
  | [] => [(k, v)]
  | (k', v') :: d' =>
      if decide (k = k') then (k', v) :: d' else (k', v') :: dict_set k v d'
  end.

(** [d.get(k)]; [d[k]] raises [KeyError] where this is [None]. *)
Fixpoint dict_get (k : K) (d : dict) : option V :=
  match d with
  | [] => None
  | (k', v') :: d' => if decide (k = k') then Some v' else dict_get k d'
  end.

(** [dict(pairs)] *)
Definition dict_of (pairs : list (K * V)) : dict :=
  fold_left (fun d kv => dict_set kv.1 kv.2 d) pairs [].

Definition keys (d : dict) : list K := d.*1.
Definition values (d : dict) : list V := d.*2.

(** [d] maps the [i]-th entry of [ks] to the [i]-th entry of [vs]. *)
Definition maps_by_index (ks : list K) (vs : list V) (d : dict) : Prop :=
  ∀ i k v, ks !! i = Some k → vs !! i = Some v → dict_get k d = Some v.

(** [d] maps a key to the entry of [vs] at the last index, below the
    length of [vs], at which [ks] holds that key, and has no other
    key. *)
Definition maps_by_last_index (ks : list K) (vs : list V) (d : dict)
    : Prop :=
  ∀ k v, dict_get k d = Some v ↔
    ∃ i, ks !! i = Some k ∧ vs !! i = Some v ∧
         ∀ j, i < j → j < length vs → ks !! j ≠ Some k.
End dict.
Global Arguments dict : clear implicits.
End PyDict.

Import PyDict.

(** ** Exceptions, values and the libraries *)

(** The exceptions the module raises itself or meets in list, dict and
    attribute accesses and in calls to pyplot. *)
Inductive exn : Set :=
  | YellowbrickTypeError
  | TypeError
  | KeyError
  | IndexError
  | AttributeError
  | ValueError
  | RuntimeError.

#[global] Instance exn_eq_dec : EqDecision exn.
Proof. solve_decision. Defined.

(** The kinds of Python objects that only pass through the module. *)
Class PyTypes := {
  Model : Type;                      (* scikit-learn estimators *)
  Features : Type;                   (* [X] *)
  Targets : Type;                    (* [y], [y_pred]; [None] included *)
  Label : Type;                      (* class names *)
  Label_eq_dec :: EqDecision Label;
  Score : Type;                      (* floats computed by scikit-learn *)
  Axes : Type;                       (* matplotlib axes *)
  PyVal : Type;                      (* colours, colour maps, keyword values *)
}.

Section values.
Context `{PyTypes}.

(** The attributes hoisted to the base classes ([self.ax] to
    [Visualizer], [self.estimator] and [self.name] to
    [ScoreVisualizer]).  [ax = None] is Python's [None]. *)
Record Visualizer := {
  ax : option Axes;
  estimator : Model;
  name : string;
}.

Definition with_ax (a : option Axes) (b : Visualizer) : Visualizer :=
  {| ax := a; estimator := estimator b; name := name b |}.

(** The calls made to pyplot and to the axes, with the arguments the
    module computes.  The tick calls carry the number of positions,
    which are [np.arange(ticks)], and the labels.  Float literals are
    recorded as the decimal fractions they are written as. *)
Inductive call : Type :=
  | ax_text (a : Axes) (x y : nat) (s : Score)
  | plt_imshow (X : list (list Score)) (cmap : PyVal)
  | plt_title (s : string)
  | plt_colorbar
  | plt_xticks_names (ticks : nat) (labels : list string)
  | plt_xticks (ticks : nat) (labels : list Label)
  | plt_yticks (ticks : nat) (labels : list Label)
  | plt_ylabel (s : string)
  | plt_xlabel (s : string)
  | plt_plot (x y : list Score) (c : PyVal) (label : string)
  | plt_plot_fmt (x y : list Z) (fmt : string) (c : PyVal)
  | plt_legend (loc : string)
  | plt_xlim (lo hi : Q)
  | plt_ylim (lo hi : Q)
  | plt_bar (n : nat) (height : list Z) (color : PyVal)
  | plt_show.

(** The state of [matplotlib.pyplot]: the current axes, which
    [plt.gca()] returns, and the calls made so far, those that pyplot
    refused included. *)
Record pyplot := {
  gca : Axes;
  calls : list call;
}.

(** the pyplot state after the further calls [cs] *)
Definition called (cs : list call) (w : pyplot) : pyplot :=
  {| gca := gca w; calls := calls w ++ cs |}.

(** a call that draws an image: [plt.imshow] on a matrix that has a
    row *)
Definition is_image (c : call) : bool :=
  match c with
  | plt_imshow (_ :: _) _ => true
  | _ => false
  end.

(** an image has been drawn *)
Definition image_drawn (w : pyplot) : bool := existsb is_image (calls w).

(** What matplotlib answers to the calls the module makes.  It refuses
    three of them: [plt.imshow] raises [TypeError] on a matrix without
    rows, [plt.colorbar()] raises [RuntimeError] when no image has been
    drawn to take the colours from, and [plt.xticks] and [plt.yticks]
    raise [ValueError] when the number of labels is not the number of
    positions.  The other calls return. *)
Definition refused (c : call) (w : pyplot) : option exn :=
  match c with
  | plt_imshow [] _ => Some TypeError
  | plt_colorbar => if image_drawn w then None else Some RuntimeError
  | plt_xticks_names ticks labels =>
      if length labels =? ticks then None else Some ValueError
  | plt_xticks ticks labels | plt_yticks ticks labels =>
      if length labels =? ticks then None else Some ValueError
  | _ => None
  end.

Definition Kwargs := dict string PyVal.

(** [kwargs.pop(key, default)] (the value; [kwargs] is not read again) *)
Definition pop (key : string) (default : PyVal) (kwargs : Kwargs) : PyVal :=
  from_option id default (dict_get key kwargs).
End values.

(** What the module imports: [yellowbrick.utils], [yellowbrick.style],
    the methods inherited from [yellowbrick.base.ScoreVisualizer] and the
    metrics of scikit-learn.  Calls into scikit-learn may raise. *)
Class Libs `{PyTypes} := {
  isclassifier : Model → bool;
  get_model_name : Model → string;
  ddlheatmap : PyVal;
  PALETTES_paired : PyVal;
  py_str : string → PyVal;
  (* [colors[0:n]] *)
  py_slice : PyVal → nat → PyVal;
  (* ['{:0.2f}'.format(x)] *)
  format_2f : Score → string;
  (* [ScoreVisualizer.fit] and [ScoreVisualizer.predict], which act on
     the hoisted attributes *)
  ScoreVisualizer_fit : Visualizer → Features → Targets → exn + Visualizer;
  ScoreVisualizer_predict : Visualizer → Features → exn + Targets;
  (* [estimator.classes_] *)
  estimator_classes_ : Model → exn + list Label;
  precision_recall_fscore_support :
    Targets → Targets → exn + (list Score * list Score * list Score * list Z);
  roc_curve : Targets → Targets → exn + (list Score * list Score * list Score);
  auc : list Score → list Score → exn + Score;
}.

(** ** Methods: instance state, pyplot state, exceptions

    A method body is run on the instance attributes [I] and the pyplot
    state.  An exception ends the body and keeps what was assigned before
    it was raised. *)

Section monad.
Context `{PyTypes} {I : Type}.

Definition M (A : Type) : Type := I → pyplot → (exn + A) * I * pyplot.

Definition ret {A} (a : A) : M A := fun s w => (inr a, s, w).

Definition raise {A} (e : exn) : M A := fun s w => (inl e, s, w).

Definition bind {A B} (m : M A) (k : A → M B) : M B :=
  fun s w =>
    match m s w with
    | (inr a, s', w') => k a s' w'
    | (inl e, s', w') => (inl e, s', w')
    end.

(** [self] *)
Definition self : M I := fun s w => (inr s, s, w).

(** an assignment to attributes of [self] *)
Definition assign (f : I → I) : M unit := fun s w => (inr tt, f s, w).

(** the result of a call into a library *)
Definition lib {A} (r : exn + A) : M A :=
  match r with inr a => ret a | inl e => raise e end.

(** reading an attribute that is assigned outside [__init__] *)
Definition attr {A} (get : I → option A) : M A :=
  fun s w =>
    match get s with
    | Some a => (inr a, s, w)
    | None => (inl AttributeError, s, w)
    end.

(** a call to pyplot or to the axes, which raises when matplotlib
    refuses it *)
Definition plt (c : call) : M unit :=
  fun s w =>
    match refused c w with
    | Some e => (inl e, s, called [c] w)
    | None => (inr tt, s, called [c] w)
    end.

(** [plt.gca()] *)
Definition plt_gca : M Axes := fun s w => (inr (gca w), s, w).

(** [for x in l: body] *)
Fixpoint for_each {A} (l : list A) (body : A → M unit) : M unit :=
  match l with
  | [] => ret tt
  | x :: l' => bind (body x) (fun _ => for_each l' body)
  end.

(** [l[i]] for a list and [0 <= i] *)
Definition index {A} (l : list A) (i : nat) : M A :=
  match l !! i with Some x => ret x | None => raise IndexError end.

(** [d[k]] for a dict *)
Definition subscript {K V} `{EqDecision K} (d : dict K V) (k : K) : M V :=
  match dict_get k d with Some v => ret v | None => raise KeyError end.

(** iterating or taking [len] of a value that may be [None] *)
Definition not_none {A} (o : option A) : M A :=
  match o with Some a => ret a | None => raise TypeError end.
End monad.
Global Arguments M {_} I A.

Declare Scope py_scope.
Delimit Scope py_scope with py.
Notation "'let*' x ':=' c 'in' k" := (bind c (fun x => k))
  (at level 10, x name, c at level 100, k at level 200) : py_scope.
Notation "'let*' ' p ':=' c 'in' k" :=
  (bind c (fun x => match x with p => k end))
  (at level 10, p strict pattern, c at level 100, k at level 200) : py_scope.
Notation "c ;; k" := (bind c (fun _ => k))
  (at level 100, k at level 200, right associativity) : py_scope.
Open Scope py_scope.

(** The outcome, the attributes and the pyplot state after a run. *)
Definition outcome {I A W} (r : (exn + A) * I * W) : exn + A := r.1.1.
Definition attrs {I A W} (r : (exn + A) * I * W) : I := r.1.2.
Definition plot {I A W} (r : (exn + A) * I * W) : W := r.2.

Section frame_definitions.
Context `{PyTypes} {I : Type}.

(** [m] leaves the part [f] of the instance as it was, whether it
    returns or raises. *)
Definition keeps {X A} (f : I → X) (m : M I A) : Prop :=
  ∀ s w, f (attrs (m s w)) = f s.

(** [m] leaves every attribute as it was. *)
Definition keeps_attrs {A} (m : M I A) : Prop := keeps id m.
End frame_definitions.

(** ** ScoreVisualizer and ClassificationScoreVisualizer *)

Section ScoreVisualizer.
Context `{Libs}.

(** Modelled from the spec: [ScoreVisualizer.__init__] is defined in
    [yellowbrick/base.py], which is not part of the sources.  It stores
    the hoisted attributes named in the constructors' comments and, the
    type check of the classifier being the single validation, it does
    not raise. *)
Definition ScoreVisualizer_init (model : Model) (ax : option Axes)
    (kwargs : Kwargs) : Visualizer :=
  {| ax := ax; estimator := model; name := get_model_name model |}.
End ScoreVisualizer.

Module ClassificationScoreVisualizer.
Section methods.
Context `{Libs}.

Definition __init__ (model : Model) (ax : option Axes) (kwargs : Kwargs)
    : exn + Visualizer :=
  if negb (isclassifier model) then inl YellowbrickTypeError
  else inr (ScoreVisualizer_init model ax kwargs).
End methods.
End ClassificationScoreVisualizer.

(** ** ClassificationReport *)

Module ClassificationReport.
Section methods.
Context `{Libs}.

(** The three values [self.scores] takes in [score]: the tuple that
    scikit-learn returns, the iterator [map(f, scores[0:3])] (given by
    the arrays it runs over; Python 2 builds the list of dicts at this
    point instead), and the dict of dicts. *)
Inductive scores_value : Type :=
  | scores_tuple (t : list Score * list Score * list Score * list Z)
  | scores_map (arrays : list (list Score))
  | scores_dict (d : dict string (dict Label Score)).

(** The instance attributes.  [scores] and [matrix] do not exist
    before [score] and [draw] assign them ([None] here);
    [classes_ = None] is Python's [None]. *)
Record t := {
  base : Visualizer;
  cmap : PyVal;
  classes_ : option (list Label);
  scores : option scores_value;
  matrix : option (list (list Score));
}.

Definition set_base (b : Visualizer) (s : t) : t :=
  {| base := b; cmap := cmap s; classes_ := classes_ s;
     scores := scores s; matrix := matrix s |}.
Definition set_classes_ (c : option (list Label)) (s : t) : t :=
  {| base := base s; cmap := cmap s; classes_ := c;
     scores := scores s; matrix := matrix s |}.
Definition set_scores (v : scores_value) (s : t) : t :=
  {| base := base s; cmap := cmap s; classes_ := classes_ s;
     scores := Some v; matrix := matrix s |}.
Definition set_matrix (m : list (list Score)) (s : t) : t :=
  {| base := base s; cmap := cmap s; classes_ := classes_ s;
     scores := scores s; matrix := Some m |}.
Definition set_ax (a : option Axes) (s : t) : t :=
  set_base (with_ax a (base s)) s.

Definition __init__ (model : Model) (ax : option Axes)
    (classes : option (list Label)) (kwargs : Kwargs) : exn + t :=
  match ClassificationScoreVisualizer.__init__ model ax kwargs with
  | inl e => inl e
  | inr b =>
      inr {| base := b; cmap := pop "cmap" ddlheatmap kwargs;
             classes_ := classes; scores := None; matrix := None |}
  end.

Definition fit (X : Features) (y : Targets) : M t t :=
  let* s := self in
  let* b := lib (ScoreVisualizer_fit (base s) X y) in
  assign (set_base b) ;;
  let* s := self in
  match classes_ s with
  | None =>
      let* cs := lib (estimator_classes_ (estimator (base s))) in
      assign (set_classes_ (Some cs))
  | Some _ => ret tt
  end ;;
  self.

(** [self.scores[key][cls]] *)
Definition scores_at (key : string) (cls : Label) : M t Score :=
  let* v := attr scores in
  match v with
  | scores_dict d => let* d' := subscript d key in subscript d' cls
  | _ => raise TypeError
  end.

Definition draw (y y_pred : Targets) : M t (option Axes) :=
  let* s := self in
  match ax (base s) with
  | None => let* a := plt_gca in assign (set_ax (Some a))
  | Some _ => ret tt
  end ;;
  assign (set_matrix []) ;;
  let* s := self in
  let* cs := not_none (classes_ s) in
  for_each cs (fun cls =>
    let* m := attr matrix in
    let* p := scores_at "precision" cls in
    let* r := scores_at "recall" cls in
    let* f := scores_at "f1" cls in
    assign (set_matrix (m ++ [[p; r; f]]))) ;;
  let* m := attr matrix in
  for_each (seq 0 (length m + 1)) (fun column =>
    let* s := self in
    let* cs := not_none (classes_ s) in
    for_each (seq 0 (length cs)) (fun row =>
      let* a := attr (fun s => ax (base s)) in
      let* m := attr matrix in
      let* r := index m row in
      let* v := index r column in
      plt (ax_text a column row v))) ;;
  let* s := self in
  let* m := attr matrix in
  plt (plt_imshow m (cmap s)) ;;
  ret (ax (base s)).

Definition score (X : Features) (y : Targets) : M t (option Axes) :=
  let* s := self in
  let* y_pred := lib (ScoreVisualizer_predict (base s) X) in
  let keys := ["precision"; "recall"; "f1"]%string in
  let* prfs := lib (precision_recall_fscore_support y y_pred) in
  assign (set_scores (scores_tuple prfs)) ;;
  let '(p, r, f, _) := prfs in
  assign (set_scores (scores_map [p; r; f])) ;;
  let per_class (arr : list Score) : M t (dict Label Score) :=
    let* s := self in
    let* cs := not_none (classes_ s) in
    ret (dict_of (zip cs arr)) in
  let* dp := per_class p in
  let* dr := per_class r in
  let* df := per_class f in
  assign (set_scores (scores_dict (dict_of (zip keys [dp; dr; df])))) ;;
  draw y y_pred.

Definition finalize (kwargs : Kwargs) : M t (option Axes) :=
  let* s := self in
  plt (plt_title (name (base s) +:+ " Classification Report")) ;;
  plt plt_colorbar ;;
  let* cs := not_none (classes_ s) in
  let x_tick_marks := length cs + 1 in
  let y_tick_marks := length cs in
  plt (plt_xticks_names x_tick_marks ["precision"; "recall"; "f1-score"]%string) ;;
  plt (plt_yticks y_tick_marks cs) ;;
  plt (plt_ylabel "Classes") ;;
  plt (plt_xlabel "Measures") ;;
  ret (ax (base s)).

Definition poof : M t (option Axes) :=
  let* s := self in
  match ax (base s) with
  | None => ret None
  | Some _ =>
      finalize [] ;;
      plt plt_show ;;
      let* s := self in
      ret (ax (base s))
  end.

(** *** Parts of the methods, named for the statements about them *)

(** [scores[key][cls]] where it is defined *)
Definition score_lookup (s : t) (key : string) (cls : Label) : option Score :=
  match scores s with
  | Some (scores_dict d) => d' ← dict_get key d; dict_get cls d'
  | _ => None
  end.

(** [row] is [[scores['precision'][cls], scores['recall'][cls],
    scores['f1'][cls]]] *)
Definition row_of (s : t) (cls : Label) (row : list Score) : Prop :=
  ∃ p r f, score_lookup s "precision" cls = Some p ∧
           score_lookup s "recall" cls = Some r ∧
           score_lookup s "f1" cls = Some f ∧
           row = [p; r; f].

(** [self.scores] as [score] leaves it: the dict of the three
    per-class dicts *)
Definition scores_of (dp dr df : dict Label Score) : scores_value :=
  scores_dict [("precision", dp); ("recall", dr); ("f1", df)]%string.

(** [scores] by index: a dict with the three keys whose
    values map the [i]-th class to the [i]-th entry of the array *)
Definition scores_by_index (s : t) (cs : list Label) (p r f : list Score)
    : Prop :=
  ∃ dp dr df,
    scores s = Some (scores_of dp dr df) ∧
    maps_by_index cs p dp ∧ maps_by_index cs r dr ∧ maps_by_index cs f df.

(** the body of the loop that fills [self.matrix] *)
Definition add_row (cls : Label) : M t unit :=
  let* m := attr matrix in
  let* p := scores_at "precision" cls in
  let* r := scores_at "recall" cls in
  let* f := scores_at "f1" cls in
  assign (set_matrix (m ++ [[p; r; f]])).

(** the text annotation of one cell, and of one column *)
Definition annotate_cell (column row : nat) : M t unit :=
  let* a := attr (fun s => ax (base s)) in
  let* m := attr matrix in
  let* r := index m row in
  let* v := index r column in
  plt (ax_text a column row v).

Definition annotate_column (column : nat) : M t unit :=
  let* s := self in
  let* cs := not_none (classes_ s) in
  for_each (seq 0 (length cs)) (annotate_cell column).

(** what [draw] does once [self.matrix] is filled *)
Definition finish : M t (option Axes) :=
  let* m := attr matrix in
  for_each (seq 0 (length m + 1)) annotate_column ;;
  let* s := self in
  let* m := attr matrix in
  plt (plt_imshow m (cmap s)) ;;
  ret (ax (base s)).

(** the instance when the loop over [classes_] starts *)
Definition draw_start (s : t) (w : pyplot) : t :=
  set_matrix []
    match ax (base s) with
    | None => set_ax (Some (gca w)) s
    | Some _ => s
    end.

(** The instance has its axes, [n] classes and an [n]-by-3 matrix. *)
Definition drawn (s : t) (cs : list Label) (m : list (list Score)) : Prop :=
  is_Some (ax (base s)) ∧ classes_ s = Some cs ∧ matrix s = Some m ∧
  length m = length cs ∧ Forall (fun row => length row = 3) m.

(** the calls [finalize] makes for the class names [cs] *)
Definition finalize_calls (s : t) (cs : list Label) : list call :=
  [plt_title (name (base s) +:+ " Classification Report");
   plt_colorbar;
   plt_xticks_names (length cs + 1) ["precision"; "recall"; "f1-score"]%string;
   plt_yticks (length cs) cs;
   plt_ylabel "Classes";
   plt_xlabel "Measures"].
End methods.
End ClassificationReport.

(** ** ROCAUC *)

Module ROCAUC.
Section methods.
Context `{Libs}.

(** [fpr], [tpr], [thresholds] and [roc_auc] do not exist before
    [score] assigns them. *)
Record t := {
  base : Visualizer;
  colors : dict string PyVal;
  fpr : option (list Score);
  tpr : option (list Score);
  thresholds : option (list Score);
  roc_auc : option Score;
}.

Definition set_base (b : Visualizer) (s : t) : t :=
  {| base := b; colors := colors s; fpr := fpr s; tpr := tpr s;
     thresholds := thresholds s; roc_auc := roc_auc s |}.
Definition set_curve (f tp th : list Score) (s : t) : t :=
  {| base := base s; colors := colors s; fpr := Some f; tpr := Some tp;
     thresholds := Some th; roc_auc := roc_auc s |}.
Definition set_roc_auc (a : Score) (s : t) : t :=
  {| base := base s; colors := colors s; fpr := fpr s; tpr := tpr s;
     thresholds := thresholds s; roc_auc := Some a |}.
Definition set_ax (a : option Axes) (s : t) : t :=
  set_base (with_ax a (base s)) s.

Definition __init__ (model : Model) (ax : option Axes) (kwargs : Kwargs)
    : exn + t :=
  match ClassificationScoreVisualizer.__init__ model ax kwargs with
  | inl e => inl e
  | inr b =>
      inr {| base := b;
             colors := dict_of
               [("roc"%string, pop "roc_color" (py_str "#2B94E9") kwargs);
                ("diagonal"%string, pop "diagonal_color" (py_str "#666666") kwargs)];
             fpr := None; tpr := None; thresholds := None;
             roc_auc := None |}
  end.

Definition draw (y y_pred : Targets) : M t (option Axes) :=
  let* s := self in
  match ax (base s) with
  | None => let* a := plt_gca in assign (set_ax (Some a))
  | Some _ => ret tt
  end ;;
  let* s := self in
  let* f := attr fpr in
  let* tp := attr tpr in
  let* c := subscript (colors s) "roc"%string in
  let* a := attr roc_auc in
  plt (plt_plot f tp c ("AUC = " +:+ format_2f a)) ;;
  let* c := subscript (colors s) "diagonal"%string in
  plt (plt_plot_fmt [0; 1]%Z [0; 1]%Z "m--" c) ;;
  ret (ax (base s)).

Definition score (X : Features) (y : Targets) : M t (option Axes) :=
  let* s := self in
  let* y_pred := lib (ScoreVisualizer_predict (base s) X) in
  let* '(f, tp, th) := lib (roc_curve y y_pred) in
  assign (set_curve f tp th) ;;
  let* f := attr fpr in
  let* tp := attr tpr in
  let* a := lib (auc f tp) in
  assign (set_roc_auc a) ;;
  draw y y_pred.

Definition poof (kwargs : Kwargs) : M t (option Axes) :=
  let* s := self in
  match ax (base s) with
  | None => ret None
  | Some _ =>
      plt (plt_title ("ROC for " +:+ name (base s))) ;;
      plt (plt_legend "lower right") ;;
      plt (plt_xlim (-2 # 100) 1) ;;
      plt (plt_ylim 0 (11 # 10)) ;;
      plt plt_show ;;
      let* s := self in
      ret (ax (base s))
  end.

(** the instance once [draw] has looked for the axes *)
Definition draw_start (s : t) (w : pyplot) : t :=
  match ax (base s) with
  | None => set_ax (Some (gca w)) s
  | Some _ => s
  end.
End methods.
End ROCAUC.

(** ** ClassBalance *)

Module ClassBalance.
Section methods.
Context `{Libs}.

(** [scores] and [support] do not exist before [score] assigns them;
    [classes_ = None] is Python's [None]. *)
Record t := {
  base : Visualizer;
  colors : PyVal;
  classes_ : option (list Label);
  scores : option (list Score * list Score * list Score * list Z);
  support : option (dict Label Z);
}.

Definition set_base (b : Visualizer) (s : t) : t :=
  {| base := b; colors := colors s; classes_ := classes_ s;
     scores := scores s; support := support s |}.
Definition set_classes_ (c : option (list Label)) (s : t) : t :=
  {| base := base s; colors := colors s; classes_ := c;
     scores := scores s; support := support s |}.
Definition set_scores (v : list Score * list Score * list Score * list Z)
    (s : t) : t :=
  {| base := base s; colors := colors s; classes_ := classes_ s;
     scores := Some v; support := support s |}.
Definition set_support (d : dict Label Z) (s : t) : t :=
  {| base := base s; colors := colors s; classes_ := classes_ s;
     scores := scores s; support := Some d |}.
Definition set_ax (a : option Axes) (s : t) : t :=
  set_base (with_ax a (base s)) s.

Definition __init__ (model : Model) (ax : option Axes)
    (classes : option (list Label)) (kwargs : Kwargs) : exn + t :=
  match ClassificationScoreVisualizer.__init__ model ax kwargs with
  | inl e => inl e
  | inr b =>
      inr {| base := b; colors := pop "colors" PALETTES_paired kwargs;
             classes_ := classes; scores := None; support := None |}
  end.

Definition fit (X : Features) (y : Targets) : M t t :=
  let* s := self in
  let* b := lib (ScoreVisualizer_fit (base s) X y) in
  assign (set_base b) ;;
  let* s := self in
  match classes_ s with
  | None =>
      let* cs := lib (estimator_classes_ (estimator (base s))) in
      assign (set_classes_ (Some cs))
  | Some _ => ret tt
  end ;;
  self.

Definition draw : M t (option Axes) :=
  let* s := self in
  match ax (base s) with
  | None => let* a := plt_gca in assign (set_ax (Some a))
  | Some _ => ret tt
  end ;;
  let* s := self in
  let* cs := not_none (classes_ s) in
  let colors := py_slice (colors s) (length cs) in
  let* d := attr support in
  plt (plt_bar (length d) (values d) colors) ;;
  ret (ax (base s)).

Definition score (X : Features) (y : Targets) : M t (option Axes) :=
  let* s := self in
  let* y_pred := lib (ScoreVisualizer_predict (base s) X) in
  let* prfs := lib (precision_recall_fscore_support y y_pred) in
  assign (set_scores prfs) ;;
  let* s := self in
  let* cs := not_none (classes_ s) in
  let* v := attr scores in
  assign (set_support (dict_of (zip cs v.2))) ;;
  draw.

(** [max(xs)] and [min(xs)], which raise [ValueError] on an empty
    sequence *)
Definition py_max (xs : list Z) : M t Z :=
  match xs with
  | [] => raise ValueError
  | x :: xs' => ret (foldl Z.max x xs')
  end.
Definition py_min (xs : list Z) : M t Z :=
  match xs with
  | [] => raise ValueError
  | x :: xs' => ret (foldl Z.min x xs')
  end.

(** The product with the float [0.1] is taken in the rationals. *)
Definition poof : M t (option Axes) :=
  let* s := self in
  match ax (base s) with
  | None => ret None
  | Some _ =>
      let* d := attr support in
      plt (plt_xticks (length d) (keys d)) ;;
      let* d := attr support in
      let* cmax := py_max (values d) in
      let* d := attr support in
      let* cmin := py_min (values d) in
      let ceiling := (inject_Z cmax + inject_Z cmax * (1 # 10))%Q in
      let span := (cmax - cmin)%Z in
      plt (plt_ylim 0 ceiling) ;;
      plt plt_show ;;
      let* s := self in
      ret (ax (base s))
  end.

(** the instance once [draw] has looked for the axes *)
Definition draw_start (s : t) (w : pyplot) : t :=
  match ax (base s) with
  | None => set_ax (Some (gca w)) s
  | Some _ => s
  end.
End methods.
End ClassBalance.

(** ** A small instance of the libraries

    Estimators, data and metrics cut down to what is needed to run the
    methods on concrete inputs: an estimator is the list of classes it
    was trained on ([None] for an estimator that is not a classifier),
    it predicts every feature row as given, and the metrics are fixed
    tables indexed by the labels that occur in [y] and [y_pred].  The
    scores are whole numbers, which ['{:0.2f}'] writes with two zeros
    after the point. *)

Module Fixture.
#[export] Instance types : PyTypes := {|
  Model := option (list string);
  Features := list string;
  Targets := list string;
  Label := string;
  Score := Z;
  Axes := nat;
  PyVal := string;
|}.

(** the labels that occur in [y] or [y_pred], once each, in the order
    in which they first occur *)
Definition labels (y y_pred : list string) : list string :=
  foldl (fun seen l => if bool_decide (l ∈ seen) then seen else seen ++ [l])
    [] (y ++ y_pred).

Definition count (l : string) (y : list string) : Z :=
  Z.of_nat (length (filter (fun x => x = l) y)).

#[export] Instance libs : Libs := {|
  isclassifier m := bool_decide (is_Some m);
  get_model_name m :=
    match m with Some _ => "Classifier" | None => "Regressor" end;
  ddlheatmap := "ddlheatmap";
  PALETTES_paired := "paired";
  py_str s := s;
  py_slice v n := v;
  format_2f x := pretty x +:+ ".00";
  ScoreVisualizer_fit b X y := inr b;
  ScoreVisualizer_predict b X := inr X;
  estimator_classes_ m :=
    match m with Some cs => inr cs | None => inl AttributeError end;
  precision_recall_fscore_support y y_pred :=
    let ls := labels y y_pred in
    inr (imap (fun i _ => (10 * Z.of_nat i + 1)%Z) ls,
         imap (fun i _ => (10 * Z.of_nat i + 2)%Z) ls,
         imap (fun i _ => (10 * Z.of_nat i + 3)%Z) ls,
         (fun l => count l y) <$> ls);
  roc_curve y y_pred := inr ([0; 50; 100]%Z, [0; 80; 100]%Z, [2; 1; 0]%Z);
  auc f tp := inr 65%Z;
|}.

Definition classifier : Model := Some ["a"; "b"]%string.
Definition regressor : Model := None.

(** a fresh pyplot whose current axes are number 7 *)
Definition plt0 : pyplot := {| gca := 7; calls := [] |}.

(** three rows of features and their targets, with the labels [a], [b] *)
Definition X2 : Features := ["a"; "b"; "a"]%string.
Definition y2 : Targets := ["a"; "b"; "b"]%string.

(** four rows with the labels [a], [b], [c] *)
Definition X3 : Features := ["a"; "b"; "c"; "c"]%string.
Definition y3 : Targets := ["a"; "b"; "c"; "a"]%string.

(** the instances that the constructors return for [classifier] *)
Definition visualizer (ax : option Axes) : Visualizer :=
  {| ax := ax; estimator := classifier; name := "Classifier" |}.

Definition report (ax : option Axes) (classes : option (list Label))
    : ClassificationReport.t :=
  {| ClassificationReport.base := visualizer ax;
     ClassificationReport.cmap := "ddlheatmap";
     ClassificationReport.classes_ := classes;
     ClassificationReport.scores := None;
     ClassificationReport.matrix := None |}.

Definition rocauc (ax : option Axes) : ROCAUC.t :=
  {| ROCAUC.base := visualizer ax;
     ROCAUC.colors := [("roc", "#2B94E9"); ("diagonal", "#666666")]%string;
     ROCAUC.fpr := None; ROCAUC.tpr := None; ROCAUC.thresholds := None;
     ROCAUC.roc_auc := None |}.

Definition balance (ax : option Axes) (classes : option (list Label))
    : ClassBalance.t :=
  {| ClassBalance.base := visualizer ax;
     ClassBalance.colors := "paired";
     ClassBalance.classes_ := classes;
     ClassBalance.scores := None;
     ClassBalance.support := None |}.
End Fixture.

(** ** The text annotations of a matrix *)

Section annotations.
Context `{PyTypes}.

(** The calls [ax.text(column, row, m[row][column])] for the given
    columns and the rows [0 .. n-1], column by column; a cell that [m]
    does not have gets no call. *)
Definition annotations (a : Axes) (m : list (list Score)) (n : nat)
    (columns : list nat) : list call :=
  flat_map
    (fun column =>
       flat_map
         (fun row =>
            match m !! row ≫= (.!! column) with
            | Some v => [ax_text a column row v]
            | None => []
            end)
         (seq 0 n))
    columns.
End annotations.

(** ** A second instance, whose library calls can raise

    As [Fixture.libs], but with the refusals scikit-learn has:
    [predict] raises [ValueError] on no rows, the metrics on targets and
    predictions of different lengths, [roc_curve] on more than two
    labels, and [auc] on a curve of fewer than two points.  The curve
    has one point per label. *)

Module Strict.
Import Fixture.

Definition libs : @Libs Fixture.types := {|
  isclassifier := @isclassifier _ Fixture.libs;
  get_model_name := @get_model_name _ Fixture.libs;
  ddlheatmap := @ddlheatmap _ Fixture.libs;
  PALETTES_paired := @PALETTES_paired _ Fixture.libs;
  py_str := @py_str _ Fixture.libs;
  py_slice := @py_slice _ Fixture.libs;
  format_2f := @format_2f _ Fixture.libs;
  ScoreVisualizer_fit := @ScoreVisualizer_fit _ Fixture.libs;
  ScoreVisualizer_predict b X :=
    match X with [] => inl ValueError | _ :: _ => inr X end;
  estimator_classes_ := @estimator_classes_ _ Fixture.libs;
  precision_recall_fscore_support y y_pred :=
    if bool_decide (length y = length y_pred)
    then @precision_recall_fscore_support _ Fixture.libs y y_pred
    else inl ValueError;
  roc_curve y y_pred :=
    let n := length (labels y y_pred) in
    if bool_decide (n ≤ 2)
    then inr (replicate n 0%Z, replicate n 100%Z, replicate n 1%Z)
    else inl ValueError;
  auc f tp :=
    if bool_decide (2 ≤ length f) then inr 65%Z else inl ValueError;
|}.
End Strict.

(** ** Instances that have been scored *)

Module Scored.
Import Fixture.

(** a [ClassificationReport] after [score] on the rows [X2], [y2]
    (labels [a], [b]), and one after [score] on [X3], [y3] (labels [a],
    [b], [c]) *)
Definition report2 (classes : list Label) : ClassificationReport.t :=
  attrs (ClassificationReport.score X2 y2 (report None (Some classes)) plt0).

End Scored.

(** * Properties *)

(** ** Dictionaries *)

Section dict_facts.
Context {K V : Type} `{EqDecision K}.
Implicit Types (d : dict K V) (k x : K) (v : V) (l pairs : list (K * V))
  (ks : list K) (vs : list V).

Lemma dict_get_set_eq k v d : dict_get k (dict_set k v d) = Some v.
Proof.
  induction d as [|[k' v'] d IH]; simpl.
  - by rewrite decide_True.
  - destruct (decide (k = k')) as [->|Hne]; simpl.
    + by rewrite decide_True.
    + by rewrite decide_False.
Qed.

Lemma dict_get_set_ne k k0 v d :
  k0 ≠ k → dict_get k0 (dict_set k v d) = dict_get k0 d.
Proof.
  intros Hne. induction d as [|[k' v'] d IH]; simpl.
  - by rewrite decide_False.
  - destruct (decide (k = k')) as [->|Hk]; simpl.
    + by rewrite !decide_False.
    + destruct (decide (k0 = k')); auto.
Qed.

Lemma dict_of_snoc l k v : dict_of (l ++ [(k, v)]) = dict_set k v (dict_of l).
Proof. unfold dict_of. by rewrite fold_left_app. Qed.

Lemma dict_get_Some_mem k d v : dict_get k d = Some v → k ∈ keys d.
Proof.
  unfold keys. induction d as [|[k' v'] d IH]; simpl; [done|].
  destruct (decide (k = k')) as [->|Hne]; intros H.
  - apply list_elem_of_here.
  - apply list_elem_of_further; auto.
Qed.

Lemma mem_dict_get k d : k ∈ keys d → is_Some (dict_get k d).
Proof.
  unfold keys. induction d as [|[k' v'] d IH]; simpl.
  - intros H. by apply not_elem_of_nil in H.
  - intros H. destruct (decide (k = k')) as [->|Hne]; [by eexists|].
    apply IH. apply elem_of_cons in H as [H|H]; [done|exact H].
Qed.

(** A key of a dict built from pairs holds the value of the last pair
    that carries it. *)
Lemma dict_get_of_Some pairs k v :
  dict_get k (dict_of pairs) = Some v ↔
  ∃ i, pairs !! i = Some (k, v) ∧
       ∀ j v', i < j → pairs !! j ≠ Some (k, v').
Proof.
  revert v. induction pairs as [|[k1 v1] l IH] using rev_ind; intros v.
  - split; [done|]. by intros (i & Hi & _).
  - rewrite dict_of_snoc. destruct (decide (k = k1)) as [->|Hne].
    + rewrite dict_get_set_eq. split.
      * intros [= <-]. exists (length l). split.
        -- by rewrite list_lookup_middle.
        -- intros j v' Hj. rewrite lookup_ge_None_2; [done|].
           rewrite length_app; simpl. lia.
      * intros (i & Hi & Hlast).
        destruct (decide (i = length l)) as [->|Hi'].
        -- rewrite list_lookup_middle in Hi by done. congruence.
        -- exfalso. apply (Hlast (length l) v1).
           ++ apply lookup_lt_Some in Hi. rewrite length_app in Hi.
              simpl in Hi. lia.
           ++ by rewrite list_lookup_middle.
    + rewrite dict_get_set_ne by done. rewrite IH. split.
      * intros (i & Hi & Hlast). exists i.
        assert (i < length l) by (by eapply lookup_lt_Some).
        split; [by rewrite lookup_app_l|].
        intros j v' Hj Hc. apply lookup_snoc_Some in Hc as [[Hlt Hc]|[_ Hc]].
        -- by apply (Hlast j v').
        -- congruence.
      * intros (i & Hi & Hlast).
        apply lookup_snoc_Some in Hi as [[Hlt Hi]|[_ Hi]]; [|congruence].
        exists i. split; [done|]. intros j v' Hj Hc.
        apply (Hlast j v' Hj).
        rewrite lookup_app_l; [done|]. by eapply lookup_lt_Some.
Qed.

Lemma keys_dict_set k v d x : x ∈ keys (dict_set k v d) ↔ x = k ∨ x ∈ keys d.
Proof.
  unfold keys. induction d as [|[k' v'] d IH]; simpl.
  - rewrite list_elem_of_singleton. split; [auto|].
    intros [H|H]; [done|]. by apply not_elem_of_nil in H.
  - destruct (decide (k = k')) as [->|Hne]; simpl.
    + rewrite !elem_of_cons. tauto.
    + rewrite !elem_of_cons, IH. tauto.
Qed.

Lemma keys_dict_of pairs x : x ∈ keys (dict_of pairs) ↔ x ∈ pairs.*1.
Proof.
  induction pairs as [|[k v] l IH] using rev_ind.
  - done.
  - rewrite dict_of_snoc, keys_dict_set, IH, fmap_app, elem_of_app.
    simpl. rewrite list_elem_of_singleton. tauto.
Qed.

Lemma keys_dict_set_NoDup k v d : NoDup (keys d) → NoDup (keys (dict_set k v d)).
Proof.
  unfold keys. induction d as [|[k' v'] d IH]; simpl.
  - intros _. apply NoDup_singleton.
  - rewrite NoDup_cons. intros [Hnin Hnd].
    destruct (decide (k = k')) as [->|Hne]; simpl; rewrite NoDup_cons.
    + done.
    + split; [|auto]. intros Hin.
      apply (keys_dict_set k v d k') in Hin as [?|?]; [congruence|done].
Qed.

(** No key occurs twice in a dict. *)
Lemma keys_dict_of_NoDup pairs : NoDup (keys (dict_of pairs)).
Proof.
  induction pairs as [|[k v] l IH] using rev_ind.
  - apply NoDup_nil_2.
  - rewrite dict_of_snoc. by apply keys_dict_set_NoDup.
Qed.

Lemma lookup_zip_Some (ks : list K) (vs : list V) i k v :
  zip ks vs !! i = Some (k, v) ↔ ks !! i = Some k ∧ vs !! i = Some v.
Proof.
  rewrite lookup_zip_with_Some. split.
  - by intros (x & y & [= -> ->] & ? & ?).
  - intros [? ?]. by exists k, v.
Qed.

Lemma dict_of_zip_last ks vs : maps_by_last_index ks vs (dict_of (zip ks vs)).
Proof.
  intros k v. rewrite dict_get_of_Some. split.
  - intros (i & Hi & Hlast). apply lookup_zip_Some in Hi as [Hk Hv].
    exists i. repeat split; [done..|]. intros j Hij Hj Hkj.
    destruct (lookup_lt_is_Some_2 vs j Hj) as [v' Hv'].
    apply (Hlast j v' Hij). by apply lookup_zip_Some.
  - intros (i & Hk & Hv & Hlast). exists i. split.
    + by apply lookup_zip_Some.
    + intros j v' Hij Hj. apply lookup_zip_Some in Hj as [Hkj Hvj].
      apply (Hlast j Hij); [|done]. by eapply lookup_lt_Some.
Qed.

Lemma maps_by_last_index_NoDup ks vs d :
  maps_by_last_index ks vs d → NoDup ks → maps_by_index ks vs d.
Proof.
  intros Hd Hnd i k v Hk Hv. apply Hd. exists i. repeat split; [done..|].
  intros j Hij _ Hkj. pose proof (NoDup_lookup _ _ _ _ Hnd Hk Hkj). lia.
Qed.

Lemma fst_zip_take (ks : list K) (vs : list V) :
  (zip ks vs).*1 = take (length vs) ks.
Proof.
  revert vs. induction ks as [|k ks IH]; intros [|v vs]; simpl; try done.
  by rewrite IH.
Qed.

(** The keys are the first [length vs] entries of [ks]. *)
Lemma keys_dict_of_zip (ks : list K) (vs : list V) k :
  k ∈ keys (dict_of (zip ks vs)) ↔ k ∈ take (length vs) ks.
Proof. by rewrite keys_dict_of, fst_zip_take. Qed.
End dict_facts.

(** ** Methods and the attributes they leave alone *)

Section frame.
Context `{PyTypes} {I : Type}.
Context {X : Type} (f : I → X).

Lemma keeps_ret {A} (a : A) : keeps f (ret a).
Proof. done. Qed.

Lemma keeps_raise {A} e : keeps f (@raise _ I A e).
Proof. done. Qed.

Lemma keeps_self : keeps f (@self _ I).
Proof. done. Qed.

Lemma keeps_lib {A} (r : exn + A) : keeps f (@lib _ I A r).
Proof. by destruct r. Qed.

Lemma keeps_attr {A} (get : I → option A) : keeps f (attr get).
Proof. intros s w. unfold attr, attrs. by destruct (get s). Qed.

Lemma keeps_plt c : keeps f (@plt _ I c).
Proof. intros s w. unfold plt. by destruct (refused c w). Qed.

Lemma keeps_plt_gca : keeps f (@plt_gca _ I).
Proof. done. Qed.

Lemma keeps_index {A} (l : list A) i : keeps f (@index _ I A l i).
Proof. intros s w. unfold index. by destruct (l !! i). Qed.

Lemma keeps_subscript {K V} `{EqDecision K} (d : dict K V) k :
  keeps f (@subscript _ I K V _ d k).
Proof. intros s w. unfold subscript. by destruct (dict_get k d). Qed.

Lemma keeps_not_none {A} (o : option A) : keeps f (@not_none _ I A o).
Proof. by destruct o. Qed.

Lemma keeps_assign (g : I → I) : (∀ s, f (g s) = f s) → keeps f (assign g).
Proof. intros Hg s w. apply Hg. Qed.

Lemma keeps_bind {A B} (m : M I A) (k : A → M I B) :
  keeps f m → (∀ a, keeps f (k a)) → keeps f (bind m k).
Proof.
  intros Hm Hk s w. unfold bind. specialize (Hm s w).
  destruct (m s w) as [[[e|a] s'] w']; unfold attrs in *; simpl in *.
  - done.
  - rewrite <- Hm. apply Hk.
Qed.

Lemma keeps_for_each {A} (l : list A) (body : A → M I unit) :
  (∀ x, keeps f (body x)) → keeps f (for_each l body).
Proof.
  intros Hb. induction l as [|x l IH]; simpl.
  - apply keeps_ret.
  - apply keeps_bind; auto.
Qed.
End frame.

(** ** Running a method body step by step *)

Section steps.
Context `{PyTypes} {I : Type}.

Lemma bind_inr {A B} (m : M I A) (k : A → M I B) s w a s' w' :
  m s w = (inr a, s', w') → bind m k s w = k a s' w'.
Proof. unfold bind. by intros ->. Qed.

Lemma bind_inl {A B} (m : M I A) (k : A → M I B) s w e s' w' :
  m s w = (inl e, s', w') → bind m k s w = (inl e, s', w').
Proof. unfold bind. by intros ->. Qed.

Lemma called_called (c1 c2 : list call) w :
  called c2 (called c1 w) = called (c1 ++ c2) w.
Proof. unfold called. simpl. by rewrite app_assoc. Qed.

Lemma image_drawn_called (cs : list call) w :
  image_drawn (called cs w) = image_drawn w || existsb is_image cs.
Proof. unfold image_drawn, called. simpl. apply existsb_app. Qed.

Lemma for_each_cons {A} (x : A) l (body : A → M I unit) s w :
  for_each (x :: l) body s w =
    match body x s w with
    | (inr _, s', w') => for_each l body s' w'
    | (inl e, s', w') => (inl e, s', w')
    end.
Proof. done. Qed.

Lemma for_each_app {A} (l1 l2 : list A) (body : A → M I unit) s w :
  for_each (l1 ++ l2) body s w =
    match for_each l1 body s w with
    | (inr _, s', w') => for_each l2 body s' w'
    | (inl e, s', w') => (inl e, s', w')
    end.
Proof.
  revert s w. induction l1 as [|x l1 IH]; intros s w; [done|].
  rewrite <- app_comm_cons, !for_each_cons.
  destruct (body x s w) as [[[e|[]] s'] w']; [done|]. apply IH.
Qed.

(** a loop whose iterations all return and assign nothing *)
Lemma for_each_ok {A} (l : list A) (body : A → M I unit) s w :
  (∀ x w0, x ∈ l → ∃ w1, body x s w0 = (inr tt, s, w1)) →
  ∃ w1, for_each l body s w = (inr tt, s, w1).
Proof.
  revert w. induction l as [|x l IH]; intros w Hb; [by exists w|].
  rewrite for_each_cons.
  destruct (Hb x w) as [w0 ->]; [apply list_elem_of_here|].
  apply IH. intros x' w' Hx. apply Hb. by apply list_elem_of_further.
Qed.
End steps.

Create HintDb frame discriminated.
#[export] Hint Resolve keeps_ret keeps_raise keeps_self keeps_lib keeps_attr
  keeps_plt keeps_plt_gca keeps_index keeps_subscript keeps_not_none : frame.

(** Goes through a method body call by call. *)
Ltac frame :=
  unfold keeps_attrs;
  repeat first
    [ progress auto with frame
    | apply keeps_bind; [|intros ?]
    | apply keeps_for_each; intros ?
    | apply keeps_assign; by intros []
    | match goal with
      | |- keeps _ (match ?x with _ => _ end) => destruct x
      | |- keeps _ (let '(_, _) := ?x in _) => destruct x
      end ].

(** ** Construction *)

Section construction.
Context `{Libs}.

Lemma base_init_spec model ax kwargs :
  ClassificationScoreVisualizer.__init__ model ax kwargs =
    if isclassifier model then inr (ScoreVisualizer_init model ax kwargs)
    else inl YellowbrickTypeError.
Proof.
  unfold ClassificationScoreVisualizer.__init__.
  by destruct (isclassifier model).
Qed.

(** C1.  Constructing a [ClassificationScoreVisualizer], and so a
    [ClassificationReport], a [ROCAUC] or a [ClassBalance], raises
    [YellowbrickTypeError] exactly when [isclassifier model] is false.
    For a classifier the constructor returns the instance whatever the
    axes, the class names and the keyword arguments are: nothing else
    is checked. *)
Theorem init_raises_iff_not_classifier (model : Model) (ax : option Axes)
    (classes : option (list Label)) (kwargs : Kwargs) :
  (ClassificationScoreVisualizer.__init__ model ax kwargs = inl YellowbrickTypeError
     ↔ isclassifier model = false) ∧
  (ClassificationReport.__init__ model ax classes kwargs = inl YellowbrickTypeError
     ↔ isclassifier model = false) ∧
  (ROCAUC.__init__ model ax kwargs = inl YellowbrickTypeError
     ↔ isclassifier model = false) ∧
  (ClassBalance.__init__ model ax classes kwargs = inl YellowbrickTypeError
     ↔ isclassifier model = false) ∧
  (isclassifier model = true ↔
     (∃ b, ClassificationScoreVisualizer.__init__ model ax kwargs = inr b) ∧
     (∃ v, ClassificationReport.__init__ model ax classes kwargs = inr v) ∧
     (∃ v, ROCAUC.__init__ model ax kwargs = inr v) ∧
     (∃ v, ClassBalance.__init__ model ax classes kwargs = inr v)).
Proof.
  unfold ClassificationReport.__init__, ROCAUC.__init__, ClassBalance.__init__.
  rewrite base_init_spec.
  destruct (isclassifier model); repeat split;
    try done; eauto; by intros [[? [=]] _].
Qed.
End construction.

(** ** poof and finalize *)

Section display.
Context `{Libs}.

(** C7.  [poof] of each of the three visualizers and
    [ClassificationReport.finalize] leave every instance attribute as
    it was, also when they raise; only [__init__], [fit] and [score]
    (with the [draw] it calls) assign attributes. *)
Theorem poof_finalize_keep_attrs :
  keeps_attrs ClassificationReport.poof ∧
  (∀ kwargs, keeps_attrs (ClassificationReport.finalize kwargs)) ∧
  (∀ kwargs, keeps_attrs (ROCAUC.poof kwargs)) ∧
  keeps_attrs ClassBalance.poof.
Proof.
  assert (Hfin : ∀ kwargs, keeps_attrs (ClassificationReport.finalize kwargs))
    by (intros kwargs; unfold ClassificationReport.finalize; frame).
  unfold keeps_attrs in *.
  split; [|split; [done|split; [intros kwargs|]]].
  - unfold ClassificationReport.poof. frame.
  - unfold ROCAUC.poof. frame.
  - unfold ClassBalance.poof, ClassBalance.py_max, ClassBalance.py_min. frame.
Qed.
End display.

(** ** ClassificationReport: scores, matrix and annotation *)

Module ClassificationReportFacts.
Import ClassificationReport.
Section facts.
Context `{Libs}.

Lemma scores_at_Some s w key cls v :
  score_lookup s key cls = Some v → scores_at key cls s w = (inr v, s, w).
Proof.
  unfold score_lookup, scores_at, bind, attr, subscript.
  destruct (scores s) as [[?|?|d]|]; try done.
  destruct (dict_get key d) as [d'|]; simpl; [|done].
  intros ->. done.
Qed.

Lemma scores_at_None s w key cls :
  score_lookup s key cls = None →
  ∃ e, e ≠ IndexError ∧ scores_at key cls s w = (inl e, s, w).
Proof.
  unfold score_lookup, scores_at, bind, attr, subscript.
  destruct (scores s) as [[?|?|d]|]; simpl;
    try (intros _; eexists; split; [|reflexivity]; done).
  destruct (dict_get key d) as [d'|]; simpl.
  - intros ->. by exists KeyError.
  - intros _. by exists KeyError.
Qed.

Lemma set_matrix_twice m1 m2 s : set_matrix m2 (set_matrix m1 s) = set_matrix m2 s.
Proof. done. Qed.

Lemma add_row_spec s w m0 cls :
  matrix s = Some m0 →
  (∃ row, row_of s cls row ∧
          add_row cls s w = (inr tt, set_matrix (m0 ++ [row]) s, w)) ∨
  (∃ e, e ≠ IndexError ∧ (∀ row, ¬ row_of s cls row) ∧
        add_row cls s w = (inl e, s, w)).
Proof.
  intros Hm.
  assert (add_row cls s w =
          (let* p := scores_at "precision" cls in
           let* r := scores_at "recall" cls in
           let* f := scores_at "f1" cls in
           assign (set_matrix (m0 ++ [[p; r; f]]))) s w) as ->.
  { unfold add_row. unfold bind at 1. unfold attr. by rewrite Hm. }
  destruct (score_lookup s "precision" cls) as [p|] eqn:Hp; cycle 1.
  { right. destruct (scores_at_None s w _ _ Hp) as (e & He & Heq).
    exists e. split; [done|]. split.
    - intros row (? & ? & ? & ? & _). congruence.
    - unfold bind. by rewrite Heq. }
  destruct (score_lookup s "recall" cls) as [r|] eqn:Hr; cycle 1.
  { right. destruct (scores_at_None s w _ _ Hr) as (e & He & Heq).
    exists e. split; [done|]. split.
    - intros row (? & ? & ? & _ & ? & _). congruence.
    - unfold bind. by rewrite (scores_at_Some _ _ _ _ _ Hp), Heq. }
  destruct (score_lookup s "f1" cls) as [f|] eqn:Hf; cycle 1.
  { right. destruct (scores_at_None s w _ _ Hf) as (e & He & Heq).
    exists e. split; [done|]. split.
    - intros row (? & ? & ? & _ & _ & ? & _). congruence.
    - unfold bind.
      by rewrite (scores_at_Some _ _ _ _ _ Hp), (scores_at_Some _ _ _ _ _ Hr), Heq. }
  left. exists [p; r; f]. split; [by exists p, r, f|].
  unfold bind.
  rewrite (scores_at_Some _ _ _ _ _ Hp), (scores_at_Some _ _ _ _ _ Hr),
    (scores_at_Some _ _ _ _ _ Hf).
  done.
Qed.

(** The loop over [classes_] appends one row per class, in order, or
    stops at the first class whose scores cannot be read. *)
Lemma fill_matrix_spec cs s w m0 :
  matrix s = Some m0 →
  (∃ rows, Forall2 (row_of s) cs rows ∧
           for_each cs add_row s w = (inr tt, set_matrix (m0 ++ rows) s, w)) ∨
  (∃ e s' c, e ≠ IndexError ∧ c ∈ cs ∧ (∀ row, ¬ row_of s c row) ∧
             for_each cs add_row s w = (inl e, s', w)).
Proof.
  revert s m0. induction cs as [|c cs IH]; intros s m0 Hm.
  - left. exists []. split; [constructor|]. simpl. rewrite app_nil_r.
    unfold ret. f_equal. f_equal. destruct s; simpl in *. by rewrite Hm.
  - rewrite for_each_cons.
    destruct (add_row_spec s w m0 c Hm)
      as [(row & Hrow & ->)|(e & He & Hno & ->)].
    2: { right. exists e, s, c.
         split; [done|]. split; [apply list_elem_of_here|]. by split. }
    destruct (IH (set_matrix (m0 ++ [row]) s) (m0 ++ [row]) eq_refl)
      as [(rows & Hrows & ->)|(e & s' & c' & He & Hc' & Hno & ->)].
    2: { right. exists e, s', c'.
         split; [done|]. split; [by apply list_elem_of_further|]. by split. }
    left. exists (row :: rows). split.
    + constructor; [done|]. eapply Forall2_impl; [exact Hrows|].
      intros c' row' (p & r & f & ? & ? & ? & ?). by exists p, r, f.
    + rewrite set_matrix_twice. by rewrite <- app_assoc.
Qed.

Lemma report_draw_eq y y_pred s w :
  draw y y_pred s w =
    match classes_ s with
    | None => (inl TypeError, draw_start s w, w)
    | Some cs =>
        bind (for_each cs add_row) (fun _ => finish) (draw_start s w) w
    end.
Proof.
  unfold draw, draw_start, bind, self, assign, plt_gca, not_none, ret.
  destruct (ax (base s)); cbn [classes_ set_matrix set_ax set_base];
    destruct (classes_ s); reflexivity.
Qed.

Lemma score_lookup_draw_start s w key cls :
  score_lookup (draw_start s w) key cls = score_lookup s key cls.
Proof. unfold draw_start. by destruct (ax (base s)). Qed.

Lemma report_is_Some_ax_draw_start s w : is_Some (ax (base (draw_start s w))).
Proof. unfold draw_start. destruct (ax (base s)) eqn:E; simpl; rewrite ?E; eauto. Qed.

Lemma finish_keeps : keeps_attrs finish.
Proof. unfold finish, annotate_column, annotate_cell. frame. Qed.

Lemma finish_attrs s w : attrs (finish s w) = s.
Proof. apply finish_keeps. Qed.

Lemma finish_returns s w v s' w' :
  finish s w = (inr v, s', w') → s' = s ∧ v = ax (base s).
Proof.
  intros Hf. pose proof (finish_attrs s w) as Hk.
  rewrite Hf in Hk. unfold attrs in Hk. simpl in Hk. subst s'.
  split; [done|]. revert Hf. unfold finish.
  unfold bind at 1. destruct (attr matrix s w) as [[[e|m] s1] w1]; [done|].
  unfold bind at 1.
  pose proof (keeps_for_each id (seq 0 (length m + 1)) annotate_column) as Hl.
  specialize (Hl ltac:(intros ?; unfold annotate_column, annotate_cell; frame) s1 w1).
  destruct (for_each _ annotate_column s1 w1) as [[[e|[]] s2] w2]; [done|].
  unfold attrs in Hl; simpl in Hl. subst s2.
  unfold bind, self, attr, plt, ret. destruct (matrix s1); [|done].
  destruct (refused _ w2); [done|]. by intros [= <- <- _].
Qed.

Lemma draw_keeps_scores y y_pred : keeps scores (draw y y_pred).
Proof. unfold draw, scores_at. frame. Qed.

Lemma draw_keeps_classes_ y y_pred : keeps classes_ (draw y y_pred).
Proof. unfold draw, scores_at. frame. Qed.

Lemma draw_keeps_cmap y y_pred : keeps cmap (draw y y_pred).
Proof. unfold draw, scores_at. frame. Qed.

(** C3.  Whenever [draw] returns, and also when it stops in the
    text-annotation loop with [IndexError], the attribute [matrix]
    holds one row per entry of [classes_], in the order of [classes_],
    and the row of class [c] is [[scores['precision'][c],
    scores['recall'][c], scores['f1'][c]]]. *)
Theorem draw_matrix (y y_pred : Targets) (s : t) (w : pyplot) :
  (∃ v, outcome (draw y y_pred s w) = inr v) ∨
    outcome (draw y y_pred s w) = inl IndexError →
  ∃ cs m,
    classes_ s = Some cs ∧
    classes_ (attrs (draw y y_pred s w)) = Some cs ∧
    matrix (attrs (draw y y_pred s w)) = Some m ∧
    Forall2 (row_of (attrs (draw y y_pred s w))) cs m.
Proof.
  rewrite report_draw_eq. destruct (classes_ s) as [cs|] eqn:Hcs; cycle 1.
  { intros [[v [=]]|[=]]. }
  destruct (fill_matrix_spec cs (draw_start s w) w [] eq_refl)
    as [(rows & Hrows & Hfill)|(e & s' & c & He & _ & _ & Hfill)].
  - intros _. rewrite (bind_inr _ _ _ _ _ _ _ Hfill).
    rewrite finish_attrs. exists cs, rows. split; [done|].
    split; [|split; [done|]].
    + unfold draw_start. destruct (ax (base s)); exact Hcs.
    + eapply Forall2_impl; [exact Hrows|].
      intros c row (p & r & f & ? & ? & ? & ?). by exists p, r, f.
  - rewrite (bind_inl _ _ _ _ _ _ _ Hfill).
    intros [[v [=]]|[= ->]]. done.
Qed.

(** When [draw] returns, it returns the axes stored in [self.ax]. *)
Lemma report_draw_returns_ax y y_pred s w v :
  outcome (draw y y_pred s w) = inr v →
  v = ax (base (attrs (draw y y_pred s w))) ∧ is_Some v.
Proof.
  rewrite report_draw_eq. destruct (classes_ s) as [cs|]; [|done].
  destruct (fill_matrix_spec cs (draw_start s w) w [] eq_refl)
    as [(rows & Hrows & Hfill)|(e & s' & c & He & _ & _ & Hfill)].
  - rewrite (bind_inr _ _ _ _ _ _ _ Hfill).
    destruct (finish _ w) as [[o s1] w1] eqn:Hf. unfold outcome, attrs. simpl.
    intros ->. apply finish_returns in Hf as [-> ->].
    split; [done|]. apply report_is_Some_ax_draw_start.
  - by rewrite (bind_inl _ _ _ _ _ _ _ Hfill).
Qed.

(** [score] computes the per-class dicts and hands over to [draw]. *)
Lemma report_score_eq X y s w y_pred p r f sup cs :
  ScoreVisualizer_predict (base s) X = inr y_pred →
  precision_recall_fscore_support y y_pred = inr (p, r, f, sup) →
  classes_ s = Some cs →
  score X y s w =
    draw y y_pred
      (set_scores (scores_of (dict_of (zip cs p)) (dict_of (zip cs r))
                             (dict_of (zip cs f))) s) w.
Proof.
  intros Hpred Hprfs Hcs.
  unfold score, bind, self, lib, assign, not_none, ret.
  rewrite Hpred, Hprfs. repeat (cbn [classes_ set_scores]; rewrite Hcs).
  reflexivity.
Qed.

(** [score] raises before [draw] when a library call raises or
    [classes_] is [None]. *)
Lemma report_score_returns_inv X y s w v :
  outcome (score X y s w) = inr v →
  ∃ y_pred p r f sup cs,
    ScoreVisualizer_predict (base s) X = inr y_pred ∧
    precision_recall_fscore_support y y_pred = inr (p, r, f, sup) ∧
    classes_ s = Some cs.
Proof.
  destruct (ScoreVisualizer_predict (base s) X) as [e|y_pred] eqn:Hpred.
  { unfold score, bind, self, lib, raise, outcome. by rewrite Hpred. }
  destruct (precision_recall_fscore_support y y_pred)
    as [e|[[[p r] f] sup]] eqn:Hprfs.
  { unfold score, bind, self, lib, raise, ret, outcome.
    by rewrite Hpred, Hprfs. }
  destruct (classes_ s) as [cs|] eqn:Hcs.
  { intros _. by exists y_pred, p, r, f, sup, cs. }
  unfold score, bind, self, lib, assign, raise, ret, outcome.
  rewrite Hpred, Hprfs. cbn [classes_ set_scores]. by rewrite Hcs.
Qed.

(** C2, amended.  After [score], [scores] is a dictionary with exactly
    the keys ['precision'], ['recall'] and ['f1'], none of them built
    from the support array.  The value for each key maps a class name
    to the entry of the corresponding array at the last index at which
    [classes_] holds that name; where the names in [classes_] are
    distinct, it maps the [i]-th entry of [classes_] to the [i]-th
    entry of the array. *)
Theorem score_scores (X : Features) (y : Targets) (s : t) (w : pyplot)
    y_pred p r f sup cs :
  ScoreVisualizer_predict (base s) X = inr y_pred →
  precision_recall_fscore_support y y_pred = inr (p, r, f, sup) →
  classes_ s = Some cs →
  (∃ dp dr df,
     scores (attrs (score X y s w)) = Some (scores_of dp dr df) ∧
     maps_by_last_index cs p dp ∧ maps_by_last_index cs r dr ∧
     maps_by_last_index cs f df) ∧
  (NoDup cs → scores_by_index (attrs (score X y s w)) cs p r f).
Proof.
  intros Hpred Hprfs Hcs.
  rewrite (report_score_eq _ _ _ _ _ _ _ _ _ _ Hpred Hprfs Hcs).
  unfold scores_by_index.
  rewrite draw_keeps_scores. cbn [scores set_scores]. split.
  - eexists _, _, _. split; [reflexivity|].
    split; [|split]; apply dict_of_zip_last.
  - intros Hnd. eexists _, _, _. split; [reflexivity|].
    split; [|split];
      (apply maps_by_last_index_NoDup; [apply dict_of_zip_last|done]).
Qed.

(** *** The text-annotation loop *)

Lemma annotate_cell_eq s w a m column row :
  ax (base s) = Some a → matrix s = Some m →
  annotate_cell column row s w =
    match m !! row ≫= (.!! column) with
    | Some v =>
        (inr tt, s, called [ax_text a column row v] w)
    | None => (inl IndexError, s, w)
    end.
Proof.
  intros Ha Hm. unfold annotate_cell, bind, attr, index. rewrite Ha, Hm.
  destruct (m !! row) as [r|]; simpl; [|done]. by destruct (r !! column).
Qed.

Lemma annotate_column_ok s w cs m column :
  drawn s cs m → column < 3 →
  ∃ w1, annotate_column column s w = (inr tt, s, w1).
Proof.
  intros ([a Ha] & Hcs & Hm & Hlen & Hrows) Hcol.
  unfold annotate_column, bind, self. rewrite Hcs. simpl.
  apply for_each_ok. intros row w0 Hrow.
  apply elem_of_seq in Hrow as [_ Hrow]. rewrite <- Hlen in Hrow.
  destruct (lookup_lt_is_Some_2 m row Hrow) as [r Hr].
  assert (length r = 3) as Hr3
    by (eapply Forall_lookup_1 in Hrows; [exact Hrows|exact Hr]).
  destruct (lookup_lt_is_Some_2 r column ltac:(lia)) as [v Hv].
  rewrite (annotate_cell_eq _ _ _ _ _ _ Ha Hm), Hr. simpl. rewrite Hv.
  by eexists.
Qed.

Lemma annotate_column_3 s w cs m :
  drawn s cs m → cs ≠ [] →
  annotate_column 3 s w = (inl IndexError, s, w).
Proof.
  intros ([a Ha] & Hcs & Hm & Hlen & Hrows) Hne.
  unfold annotate_column, bind, self. rewrite Hcs. simpl.
  destruct cs as [|c cs]; [done|]. destruct m as [|r m]; [done|].
  cbn [length seq].
  rewrite for_each_cons, (annotate_cell_eq _ _ _ _ _ _ Ha Hm). simpl.
  apply Forall_cons in Hrows as [Hr _].
  by rewrite lookup_ge_None_2 by lia.
Qed.

(** The loop runs through when there are at most two classes, and
    reads past the end of a row when there are three or more. *)
Lemma annotate_spec s w cs m :
  drawn s cs m →
  for_each (seq 0 (length m + 1)) annotate_column s w =
    if decide (length cs ≤ 2)
    then (inr tt, s, plot (for_each (seq 0 (length m + 1)) annotate_column s w))
    else (inl IndexError, s, plot (for_each (seq 0 3) annotate_column s w)).
Proof.
  intros Hd. pose proof Hd as (_ & _ & _ & Hlen & _). case_decide as Hn.
  - destruct (for_each_ok (seq 0 (length m + 1)) annotate_column s w) as [w1 ->];
      [|done].
    intros column w0 Hc. apply elem_of_seq in Hc.
    apply (annotate_column_ok _ _ cs m); [done|lia].
  - replace (length m + 1) with (3 + (length m - 2)) by lia.
    rewrite seq_app, for_each_app.
    destruct (for_each_ok (seq 0 3) annotate_column s w) as [w1 ->].
    { intros column w0 Hc. apply elem_of_seq in Hc.
      apply (annotate_column_ok _ _ cs m); [done|lia]. }
    replace (length m - 2) with (S (length m - 3)) by lia. simpl seq.
    rewrite for_each_cons, (annotate_column_3 _ _ cs m); [done..|].
    intros ->. simpl in Hn. lia.
Qed.

(** [draw] on an instance whose classes all have their three scores:
    it returns the axes when there are one or two classes, raises
    [IndexError] from the text-annotation loop when there are more, and
    raises [TypeError] from [plt.imshow] when there is none. *)
Lemma draw_outcome y y_pred s w cs :
  classes_ s = Some cs →
  (∀ c, c ∈ cs → ∃ row, row_of s c row) →
  outcome (draw y y_pred s w) =
    match cs with
    | [] => inl TypeError
    | _ :: _ =>
        if decide (length cs ≤ 2) then inr (ax (base (draw_start s w)))
        else inl IndexError
    end.
Proof.
  intros Hcs Hall. rewrite report_draw_eq, Hcs.
  destruct (fill_matrix_spec cs (draw_start s w) w [] eq_refl)
    as [(rows & Hrows & Hfill)|(e & s' & c & _ & Hc & Hno & _)]; cycle 1.
  { destruct (Hall c Hc) as [row (p & r & f & ? & ? & ? & ?)].
    destruct (Hno row). exists p, r, f.
    by rewrite !score_lookup_draw_start. }
  rewrite (bind_inr _ _ _ _ _ _ _ Hfill). simpl app.
  assert (Forall (fun row => length row = 3) rows) as Hwidth.
  { clear -Hrows. induction Hrows as [|c row cs' rows' Hrow _ IH]; [done|].
    constructor; [|done]. by destruct Hrow as (? & ? & ? & _ & _ & _ & ->). }
  assert (drawn (set_matrix rows (draw_start s w)) cs rows) as Hd.
  { split; [apply report_is_Some_ax_draw_start|].
    split; [unfold draw_start; by destruct (ax (base s))|].
    split; [done|]. split; [|done]. symmetry. by eapply Forall2_length. }
  unfold finish. unfold bind at 1, attr at 1. cbn [matrix set_matrix].
  unfold bind at 1. rewrite (annotate_spec _ _ cs rows Hd).
  inversion Hrows as [|c row cs' rows' _ _]; subst.
  - rewrite decide_True by (simpl; lia). reflexivity.
  - case_decide; reflexivity.
Qed.

(** *** finalize, poof and fit *)

(** [finalize] gets past [plt.colorbar()] only when an image has been
    drawn, and past [plt.xticks], which it gives [len(classes_) + 1]
    positions for three labels, only when there are two classes. *)
Lemma finalize_eq kwargs s w :
  finalize kwargs s w =
    if image_drawn w then
      match classes_ s with
      | Some cs =>
          if decide (length cs = 2)
          then (inr (ax (base s)), s, called (finalize_calls s cs) w)
          else (inl ValueError, s, called (take 3 (finalize_calls s cs)) w)
      | None => (inl TypeError, s, called (take 2 (finalize_calls s [])) w)
      end
    else (inl RuntimeError, s, called (take 2 (finalize_calls s [])) w).
Proof.
  unfold finalize, finalize_calls, bind, self, plt, not_none, ret, raise.
  cbn [refused take]. rewrite image_drawn_called. cbn [existsb is_image].
  rewrite orb_false_r. destruct (image_drawn w); [|by rewrite !called_called].
  destruct (classes_ s) as [cs|]; [|by rewrite !called_called].
  cbn [length]. case_decide as Hn.
  - rewrite Hn. simpl. by rewrite !called_called.
  - destruct (Nat.eqb_spec 3 (length cs + 1)) as [Heq|_]; [lia|].
    by rewrite !called_called.
Qed.

Lemma report_poof_eq s w :
  poof s w =
    match ax (base s) with
    | None => (inr None, s, w)
    | Some a =>
        match finalize [] s w with
        | (inr _, s1, w1) => (inr (ax (base s1)), s1, called [plt_show] w1)
        | (inl e, s1, w1) => (inl e, s1, w1)
        end
    end.
Proof.
  unfold poof. unfold bind at 1, self at 1.
  destruct (ax (base s)); [|done].
  unfold bind at 1. by destruct (finalize [] s w) as [[[e|v] s1] w1].
Qed.

Lemma report_fit_eq X y s w :
  fit X y s w =
    match ScoreVisualizer_fit (base s) X y with
    | inl e => (inl e, s, w)
    | inr b =>
        match classes_ s with
        | Some _ => (inr (set_base b s), set_base b s, w)
        | None =>
            match estimator_classes_ (estimator b) with
            | inl e => (inl e, set_base b s, w)
            | inr cs =>
                (inr (set_classes_ (Some cs) (set_base b s)),
                 set_classes_ (Some cs) (set_base b s), w)
            end
        end
    end.
Proof.
  unfold fit, bind, self, lib, assign, ret, raise.
  destruct (ScoreVisualizer_fit (base s) X y) as [e|b]; [done|].
  cbn [classes_ set_base base]. destruct (classes_ s); [done|].
  by destruct (estimator_classes_ (estimator b)).
Qed.
End facts.
End ClassificationReportFacts.

(** ** ROCAUC: the curve and its area *)

Module ROCAUCFacts.
Import ROCAUC.
Section facts.
Context `{Libs}.

Lemma draw_keeps_curve y y_pred :
  keeps (fun s => (fpr s, tpr s, thresholds s, roc_auc s, colors s))
    (draw y y_pred).
Proof. unfold draw. frame. Qed.

Lemma rocauc_is_Some_ax_draw_start s w : is_Some (ax (base (draw_start s w))).
Proof. unfold draw_start. destruct (ax (base s)) eqn:E; simpl; rewrite ?E; eauto. Qed.

Lemma rocauc_draw_returns_ax y y_pred s w v :
  outcome (draw y y_pred s w) = inr v →
  v = ax (base (attrs (draw y y_pred s w))) ∧ is_Some v.
Proof.
  assert (draw y y_pred s w =
          bind (let* s := self in
                let* f := attr fpr in
                let* tp := attr tpr in
                let* c := subscript (colors s) "roc"%string in
                let* a := attr roc_auc in
                plt (plt_plot f tp c ("AUC = " +:+ format_2f a)) ;;
                let* c := subscript (colors s) "diagonal"%string in
                plt (plt_plot_fmt [0; 1]%Z [0; 1]%Z "m--" c))
               (fun _ => ret (ax (base (draw_start s w))))
               (draw_start s w) w) as ->.
  { unfold draw, draw_start, bind, self, assign, plt_gca, attr, subscript, plt, ret.
    destruct (ax (base s)) eqn:E; cbn [fpr tpr roc_auc colors set_ax set_base base];
      repeat (match goal with |- context [match ?x with _ => _ end] =>
                destruct x end; try done). }
  set (body := bind self _).
  assert (keeps_attrs body) as Hk by (unfold body; frame).
  unfold bind. specialize (Hk (draw_start s w) w).
  destruct (body _ w) as [[[e|[]] s1] w1]; [done|].
  unfold attrs in Hk; simpl in Hk. subst s1.
  unfold ret, outcome, attrs. simpl. intros [= <-].
  split; [done|]. apply rocauc_is_Some_ax_draw_start.
Qed.

(** [score] stores what the two library calls return and hands over
    to [draw]. *)
Lemma rocauc_score_eq X y s w y_pred f tp th a :
  ScoreVisualizer_predict (base s) X = inr y_pred →
  roc_curve y y_pred = inr (f, tp, th) →
  auc f tp = inr a →
  score X y s w = draw y y_pred (set_roc_auc a (set_curve f tp th s)) w.
Proof.
  intros Hpred Hroc Hauc.
  unfold score, bind, self, lib, assign, attr, ret.
  rewrite Hpred, Hroc. cbn [fpr tpr set_curve]. by rewrite Hauc.
Qed.

Lemma rocauc_score_returns_inv X y s w v :
  outcome (score X y s w) = inr v →
  ∃ y_pred f tp th a,
    ScoreVisualizer_predict (base s) X = inr y_pred ∧
    roc_curve y y_pred = inr (f, tp, th) ∧ auc f tp = inr a.
Proof.
  destruct (ScoreVisualizer_predict (base s) X) as [e|y_pred] eqn:Hpred.
  { unfold score, bind, self, lib, raise, outcome. by rewrite Hpred. }
  destruct (roc_curve y y_pred) as [e|[[f tp] th]] eqn:Hroc.
  { unfold score, bind, self, lib, raise, ret, outcome. by rewrite Hpred, Hroc. }
  destruct (auc f tp) as [e|a] eqn:Hauc.
  { unfold score, bind, self, lib, raise, ret, assign, attr, outcome.
    rewrite Hpred, Hroc. cbn [fpr tpr set_curve]. by rewrite Hauc. }
  intros _. by exists y_pred, f, tp, th, a.
Qed.

(** C5.  After [score], [fpr], [tpr] and [thresholds] are the three
    arrays that [roc_curve(y, predict(X))] returned and [roc_auc] is
    what [auc(fpr, tpr)] returned.  [score] does nothing else: it is
    [draw] run on the instance with these four results stored, so it
    computes no part of the curve or of its area itself. *)
Theorem score_curve (X : Features) (y : Targets) (s : t) (w : pyplot)
    y_pred f tp th a :
  ScoreVisualizer_predict (base s) X = inr y_pred →
  roc_curve y y_pred = inr (f, tp, th) →
  auc f tp = inr a →
  score X y s w = draw y y_pred (set_roc_auc a (set_curve f tp th s)) w ∧
  fpr (attrs (score X y s w)) = Some f ∧
  tpr (attrs (score X y s w)) = Some tp ∧
  thresholds (attrs (score X y s w)) = Some th ∧
  roc_auc (attrs (score X y s w)) = Some a.
Proof.
  intros Hpred Hroc Hauc.
  rewrite (rocauc_score_eq _ _ _ _ _ _ _ _ _ Hpred Hroc Hauc).
  split; [done|].
  pose proof (draw_keeps_curve y y_pred (set_roc_auc a (set_curve f tp th s)) w)
    as Hk.
  simpl in Hk. by injection Hk as -> -> -> -> _.
Qed.

End facts.
End ROCAUCFacts.

(** ** ClassBalance: the support per class *)

Module ClassBalanceFacts.
Import ClassBalance.
Section facts.
Context `{Libs}.

Lemma draw_keeps_support :
  keeps (fun s => (support s, scores s, classes_ s, colors s)) draw.
Proof. unfold draw. frame. Qed.

Lemma balance_is_Some_ax_draw_start s w : is_Some (ax (base (draw_start s w))).
Proof. unfold draw_start. destruct (ax (base s)) eqn:E; simpl; rewrite ?E; eauto. Qed.

Lemma balance_draw_eq s w :
  draw s w =
    match classes_ s, support s with
    | None, _ => (inl TypeError, draw_start s w, w)
    | Some cs, None => (inl AttributeError, draw_start s w, w)
    | Some cs, Some d =>
        (inr (ax (base (draw_start s w))), draw_start s w,
         called [plt_bar (length d) (values d)
                   (py_slice (colors s) (length cs))] w)
    end.
Proof.
  unfold draw, draw_start, bind, self, assign, plt_gca, not_none, attr, plt,
    ret, raise.
  destruct s as [b c [cs|] sc [d|]]; simpl; by destruct (ax b).
Qed.

Lemma balance_draw_returns_ax s w v :
  outcome (draw s w) = inr v →
  v = ax (base (attrs (draw s w))) ∧ is_Some v.
Proof.
  rewrite balance_draw_eq. destruct (classes_ s); [|done].
  destruct (support s); [|done]. unfold outcome, attrs. simpl.
  intros [= <-]. split; [done|]. apply balance_is_Some_ax_draw_start.
Qed.

(** [score] builds [support] and hands over to [draw]. *)
Lemma balance_score_eq X y s w y_pred p r f sup cs :
  ScoreVisualizer_predict (base s) X = inr y_pred →
  precision_recall_fscore_support y y_pred = inr (p, r, f, sup) →
  classes_ s = Some cs →
  score X y s w =
    draw (set_support (dict_of (zip cs sup)) (set_scores (p, r, f, sup) s)) w.
Proof.
  intros Hpred Hprfs Hcs.
  unfold score, bind, self, lib, assign, not_none, attr, ret.
  rewrite Hpred, Hprfs. cbn [classes_ scores set_scores]. by rewrite Hcs.
Qed.

Lemma balance_score_returns_inv X y s w v :
  outcome (score X y s w) = inr v →
  ∃ y_pred p r f sup cs,
    ScoreVisualizer_predict (base s) X = inr y_pred ∧
    precision_recall_fscore_support y y_pred = inr (p, r, f, sup) ∧
    classes_ s = Some cs.
Proof.
  destruct (ScoreVisualizer_predict (base s) X) as [e|y_pred] eqn:Hpred.
  { unfold score, bind, self, lib, raise, outcome. by rewrite Hpred. }
  destruct (precision_recall_fscore_support y y_pred)
    as [e|[[[p r] f] sup]] eqn:Hprfs.
  { unfold score, bind, self, lib, raise, ret, outcome.
    by rewrite Hpred, Hprfs. }
  destruct (classes_ s) as [cs|] eqn:Hcs.
  { intros _. by exists y_pred, p, r, f, sup, cs. }
  unfold score, bind, self, lib, assign, raise, ret, outcome.
  rewrite Hpred, Hprfs. cbn [classes_ set_scores]. by rewrite Hcs.
Qed.

(** C6.  After [score], [support] is the dictionary built from the
    pairs obtained by zipping [classes_] with the last array that
    [precision_recall_fscore_support(y, predict(X))] returned, the
    [i]-th pair being the [i]-th class name with the [i]-th support
    count.  So a name has the count at the last index that carries it,
    and where the names are distinct the [i]-th name has the [i]-th
    count. *)
Theorem score_support (X : Features) (y : Targets) (s : t) (w : pyplot)
    y_pred p r f sup cs :
  ScoreVisualizer_predict (base s) X = inr y_pred →
  precision_recall_fscore_support y y_pred = inr (p, r, f, sup) →
  classes_ s = Some cs →
  ∃ pairs,
    (∀ i c n, pairs !! i = Some (c, n) ↔ cs !! i = Some c ∧ sup !! i = Some n) ∧
    support (attrs (score X y s w)) = Some (dict_of pairs) ∧
    maps_by_last_index cs sup (dict_of pairs) ∧
    (NoDup cs → maps_by_index cs sup (dict_of pairs)).
Proof.
  intros Hpred Hprfs Hcs. exists (zip cs sup).
  split; [intros i c n; apply lookup_zip_Some|].
  rewrite (balance_score_eq _ _ _ _ _ _ _ _ _ _ Hpred Hprfs Hcs).
  pose proof (draw_keeps_support
                (set_support (dict_of (zip cs sup)) (set_scores (p, r, f, sup) s)) w)
    as Hk.
  simpl in Hk. injection Hk as -> _ _ _.
  split; [done|]. split; [apply dict_of_zip_last|].
  intros Hnd. apply maps_by_last_index_NoDup; [apply dict_of_zip_last|done].
Qed.

Lemma balance_poof_eq s w :
  poof s w =
    match ax (base s), support s with
    | None, _ => (inr None, s, w)
    | Some a, None => (inl AttributeError, s, w)
    | Some a, Some d =>
        match values d with
        | [] => (inl ValueError, s, called [plt_xticks (length d) (keys d)] w)
        | x :: xs =>
            (inr (Some a), s,
             called [plt_xticks (length d) (keys d);
                     plt_ylim 0 (inject_Z (foldl Z.max x xs)
                                 + inject_Z (foldl Z.max x xs) * (1 # 10))%Q;
                     plt_show] w)
        end
    end.
Proof.
  unfold poof, bind, self, attr, plt, py_max, py_min, ret, raise.
  destruct s as [b c cl sc [d|]]; simpl; destruct (ax b) eqn:E; try done.
  destruct d as [|[k x] d]; simpl; [done|].
  unfold keys. rewrite length_fmap, Nat.eqb_refl. simpl.
  by rewrite !called_called, E.
Qed.

Lemma balance_fit_eq X y s w :
  fit X y s w =
    match ScoreVisualizer_fit (base s) X y with
    | inl e => (inl e, s, w)
    | inr b =>
        match classes_ s with
        | Some _ => (inr (set_base b s), set_base b s, w)
        | None =>
            match estimator_classes_ (estimator b) with
            | inl e => (inl e, set_base b s, w)
            | inr cs =>
                (inr (set_classes_ (Some cs) (set_base b s)),
                 set_classes_ (Some cs) (set_base b s), w)
            end
        end
    end.
Proof.
  unfold fit, bind, self, lib, assign, ret, raise.
  destruct (ScoreVisualizer_fit (base s) X y) as [e|b]; [done|].
  cbn [classes_ set_base base]. destruct (classes_ s); [done|].
  by destruct (estimator_classes_ (estimator b)).
Qed.
End facts.
End ClassBalanceFacts.

(** ** The three visualizers together *)

Section lifecycle.
Context `{Libs}.

(** C8.  When [score] of any of the three visualizers returns, it
    returns what its call of [draw] returned, and that is the axes
    stored in [self.ax].  [ClassificationReport.poof], on an instance
    that has its axes, runs [finalize] first and calls [plt.show()]
    only once [finalize] has returned. *)
Theorem score_returns_draw_poof_finalizes :
  (∀ X y (s : ClassificationReport.t) w v,
     outcome (ClassificationReport.score X y s w) = inr v →
     (∃ y_pred s1,
        ScoreVisualizer_predict (ClassificationReport.base s) X = inr y_pred ∧
        ClassificationReport.score X y s w =
          ClassificationReport.draw y y_pred s1 w) ∧
     v = ax (ClassificationReport.base
               (attrs (ClassificationReport.score X y s w))) ∧
     is_Some v) ∧
  (∀ X y (s : ROCAUC.t) w v,
     outcome (ROCAUC.score X y s w) = inr v →
     (∃ y_pred s1,
        ScoreVisualizer_predict (ROCAUC.base s) X = inr y_pred ∧
        ROCAUC.score X y s w = ROCAUC.draw y y_pred s1 w) ∧
     v = ax (ROCAUC.base (attrs (ROCAUC.score X y s w))) ∧
     is_Some v) ∧
  (∀ X y (s : ClassBalance.t) w v,
     outcome (ClassBalance.score X y s w) = inr v →
     (∃ s1, ClassBalance.score X y s w = ClassBalance.draw s1 w) ∧
     v = ax (ClassBalance.base (attrs (ClassBalance.score X y s w))) ∧
     is_Some v) ∧
  (∀ (s : ClassificationReport.t) w a,
     ax (ClassificationReport.base s) = Some a →
     ClassificationReport.poof s w =
       match ClassificationReport.finalize [] s w with
       | (inr _, s1, w1) =>
           (inr (ax (ClassificationReport.base s1)), s1, called [plt_show] w1)
       | (inl e, s1, w1) => (inl e, s1, w1)
       end).
Proof.
  split; [|split; [|split]].
  - intros X y s w v Hv.
    destruct (ClassificationReportFacts.report_score_returns_inv _ _ _ _ _ Hv)
      as (y_pred & p & r & f & sup & cs & Hpred & Hprfs & Hcs).
    pose proof (ClassificationReportFacts.report_score_eq _ _ _ w _ _ _ _ _ _
                  Hpred Hprfs Hcs) as Heq.
    split; [by eexists _, _|]. rewrite Heq in Hv |- *.
    by apply ClassificationReportFacts.report_draw_returns_ax.
  - intros X y s w v Hv.
    destruct (ROCAUCFacts.rocauc_score_returns_inv _ _ _ _ _ Hv)
      as (y_pred & f & tp & th & a & Hpred & Hroc & Hauc).
    pose proof (ROCAUCFacts.rocauc_score_eq _ _ _ w _ _ _ _ _ Hpred Hroc Hauc) as Heq.
    split; [by eexists _, _|]. rewrite Heq in Hv |- *.
    by apply ROCAUCFacts.rocauc_draw_returns_ax.
  - intros X y s w v Hv.
    destruct (ClassBalanceFacts.balance_score_returns_inv _ _ _ _ _ Hv)
      as (y_pred & p & r & f & sup & cs & Hpred & Hprfs & Hcs).
    pose proof (ClassBalanceFacts.balance_score_eq _ _ _ w _ _ _ _ _ _
                  Hpred Hprfs Hcs) as Heq.
    split; [by eexists|]. rewrite Heq in Hv |- *.
    by apply ClassBalanceFacts.balance_draw_returns_ax.
  - intros s w a Ha. by rewrite ClassificationReportFacts.report_poof_eq, Ha.
Qed.


(** C10.  [fit] of [ClassificationReport] and of [ClassBalance]
    returns the instance itself: the value returned is the instance as
    the call leaves it.  Where [classes_] is [None] it is assigned
    [estimator.classes_]; a list of classes given at construction stays
    as it is, and [estimator.classes_] is not even read. *)
Theorem fit_returns_self_sets_classes :
  (∀ X y (s : ClassificationReport.t) w b,
     ScoreVisualizer_fit (ClassificationReport.base s) X y = inr b →
     match ClassificationReport.classes_ s with
     | Some cs =>
         ∃ s', ClassificationReport.fit X y s w = (inr s', s', w) ∧
               s' = ClassificationReport.set_base b s ∧
               ClassificationReport.classes_ s' = Some cs
     | None =>
         ∀ cs, estimator_classes_ (estimator b) = inr cs →
         ∃ s', ClassificationReport.fit X y s w = (inr s', s', w) ∧
               s' = ClassificationReport.set_classes_ (Some cs)
                      (ClassificationReport.set_base b s) ∧
               ClassificationReport.classes_ s' = Some cs
     end) ∧
  (∀ X y (s : ClassBalance.t) w b,
     ScoreVisualizer_fit (ClassBalance.base s) X y = inr b →
     match ClassBalance.classes_ s with
     | Some cs =>
         ∃ s', ClassBalance.fit X y s w = (inr s', s', w) ∧
               s' = ClassBalance.set_base b s ∧
               ClassBalance.classes_ s' = Some cs
     | None =>
         ∀ cs, estimator_classes_ (estimator b) = inr cs →
         ∃ s', ClassBalance.fit X y s w = (inr s', s', w) ∧
               s' = ClassBalance.set_classes_ (Some cs)
                      (ClassBalance.set_base b s) ∧
               ClassBalance.classes_ s' = Some cs
     end).
Proof.
  split; intros X y s w b Hfit.
  - rewrite ClassificationReportFacts.report_fit_eq, Hfit.
    destruct (ClassificationReport.classes_ s) as [cs|] eqn:Hcs.
    + by eexists.
    + intros cs ->. by eexists.
  - rewrite ClassBalanceFacts.balance_fit_eq, Hfit.
    destruct (ClassBalance.classes_ s) as [cs|] eqn:Hcs.
    + by eexists.
    + intros cs ->. by eexists.
Qed.
End lifecycle.

(** * Further properties of the methods *)

(** ** Dictionaries built from names without repetition *)

Section dict_more.
Context {K V : Type} `{EqDecision K}.
Implicit Types (d : dict K V) (k : K) (v : V) (pairs : list (K * V))
  (ks : list K) (vs : list V).

Lemma dict_get_None_not_mem k d : k ∉ keys d → dict_get k d = None.
Proof.
  intros Hk. destruct (dict_get k d) as [v|] eqn:Hv; [|done].
  destruct Hk. by eapply dict_get_Some_mem.
Qed.

Lemma dict_set_fresh k v d : k ∉ keys d → dict_set k v d = d ++ [(k, v)].
Proof.
  unfold keys. induction d as [|[k' v'] d IH]; simpl; [done|].
  rewrite not_elem_of_cons. intros [Hne Hk].
  rewrite decide_False by done. by rewrite IH.
Qed.

(** Pairs whose keys are distinct make the dict they are listed as. *)
Lemma dict_of_NoDup pairs : NoDup pairs.*1 → dict_of pairs = pairs.
Proof.
  induction pairs as [|[k v] l IH] using rev_ind; [done|].
  rewrite fmap_app, NoDup_app. simpl. intros (Hl & Hk & _).
  rewrite dict_of_snoc, IH by done. apply dict_set_fresh.
  unfold keys. intros Hin. apply (Hk k Hin). apply list_elem_of_here.
Qed.

Lemma snd_zip_take ks vs : (zip ks vs).*2 = take (length ks) vs.
Proof.
  revert vs. induction ks as [|k ks IH]; intros [|v vs]; simpl; try done.
  by rewrite IH.
Qed.

Lemma dict_of_zip_NoDup ks vs :
  NoDup ks → length ks = length vs →
  dict_of (zip ks vs) = zip ks vs ∧
  keys (dict_of (zip ks vs)) = ks ∧ values (dict_of (zip ks vs)) = vs.
Proof.
  intros Hnd Hlen.
  assert ((zip ks vs).*1 = ks) as Hfst
    by (rewrite fst_zip_take, <- Hlen; apply take_ge; lia).
  assert ((zip ks vs).*2 = vs) as Hsnd
    by (rewrite snd_zip_take, Hlen; apply take_ge; lia).
  rewrite dict_of_NoDup by (by rewrite Hfst). by unfold keys, values.
Qed.
End dict_more.

(** ** ClassificationReport: how score and draw end *)

Module ClassificationReportEdges.
Import ClassificationReport ClassificationReportFacts.
Section edges.
Context `{Libs}.

Lemma scores_at_KeyError s w d key cls :
  scores s = Some (scores_dict d) → score_lookup s key cls = None →
  scores_at key cls s w = (inl KeyError, s, w).
Proof.
  unfold score_lookup, scores_at, bind, attr, subscript. intros ->.
  destruct (dict_get key d) as [d'|]; simpl; [by intros ->|done].
Qed.

Lemma add_row_KeyError s w d m0 cls :
  scores s = Some (scores_dict d) → matrix s = Some m0 →
  (∀ row, ¬ row_of s cls row) →
  add_row cls s w = (inl KeyError, s, w).
Proof.
  intros Hs Hm Hno. unfold add_row.
  rewrite (bind_inr _ _ s w m0 s w) by (unfold attr; by rewrite Hm).
  destruct (score_lookup s "precision" cls) as [p|] eqn:Hp; cycle 1.
  { by rewrite (bind_inl _ _ _ _ _ _ _ (scores_at_KeyError _ w _ _ _ Hs Hp)). }
  rewrite (bind_inr _ _ _ _ _ _ _ (scores_at_Some _ w _ _ _ Hp)).
  destruct (score_lookup s "recall" cls) as [r|] eqn:Hr; cycle 1.
  { by rewrite (bind_inl _ _ _ _ _ _ _ (scores_at_KeyError _ w _ _ _ Hs Hr)). }
  rewrite (bind_inr _ _ _ _ _ _ _ (scores_at_Some _ w _ _ _ Hr)).
  destruct (score_lookup s "f1" cls) as [f|] eqn:Hf; cycle 1.
  { by rewrite (bind_inl _ _ _ _ _ _ _ (scores_at_KeyError _ w _ _ _ Hs Hf)). }
  destruct (Hno [p; r; f]). by exists p, r, f.
Qed.

(** The loop over [classes_] stops with [KeyError] at the first class
    that lacks one of its three scores; it has made no call to pyplot. *)
Lemma fill_matrix_KeyError cs s w d m0 :
  scores s = Some (scores_dict d) → matrix s = Some m0 →
  (∃ c, c ∈ cs ∧ ∀ row, ¬ row_of s c row) →
  ∃ s', for_each cs add_row s w = (inl KeyError, s', w) ∧ base s' = base s.
Proof.
  revert s m0. induction cs as [|c cs IH]; intros s m0 Hs Hm (c0 & Hc0 & Hno).
  { by apply not_elem_of_nil in Hc0. }
  rewrite for_each_cons.
  destruct (add_row_spec s w m0 c Hm) as [(row & Hrow & ->)|(e & _ & Hnoc & _)].
  - apply elem_of_cons in Hc0 as [->|Hc0]; [by destruct (Hno row)|].
    destruct (IH (set_matrix (m0 ++ [row]) s) (m0 ++ [row]) Hs eq_refl)
      as (s' & -> & Hbase).
    + exists c0. split; [done|]. intros row' (p & r & f & ? & ? & ? & ?).
      apply (Hno row'). by exists p, r, f.
    + by exists s'.
  - rewrite (add_row_KeyError _ _ _ _ _ Hs Hm Hnoc). by exists s.
Qed.

Lemma ax_draw_start s w :
  ax (base (draw_start s w)) = Some (default (gca w) (ax (base s))).
Proof. unfold draw_start. by destruct (ax (base s)) eqn:E; simpl; rewrite ?E. Qed.

Lemma score_lookup_scores_of s dp dr df cls :
  scores s = Some (scores_of dp dr df) →
  score_lookup s "precision" cls = dict_get cls dp ∧
  score_lookup s "recall" cls = dict_get cls dr ∧
  score_lookup s "f1" cls = dict_get cls df.
Proof. unfold score_lookup. by intros ->. Qed.

(** X1.  When the library calls return, [classes_] is a list and each
    of the three score arrays has an entry for every position of
    [classes_], the number of classes decides how [score] ends.  With
    one or two classes it returns the axes (the ones given, else
    [plt.gca()]); with three or more it raises [IndexError] from the
    text-annotation loop; with none it raises [TypeError] from
    [plt.imshow], which is handed the empty matrix. *)
Theorem score_outcome_by_class_count (X : Features) (y : Targets) (s : t)
    (w : pyplot) y_pred p r f sup cs :
  ScoreVisualizer_predict (base s) X = inr y_pred →
  precision_recall_fscore_support y y_pred = inr (p, r, f, sup) →
  classes_ s = Some cs →
  length cs ≤ length p → length cs ≤ length r → length cs ≤ length f →
  outcome (score X y s w) =
    match length cs with
    | 0 => inl TypeError
    | 1 | 2 => inr (Some (default (gca w) (ax (base s))))
    | _ => inl IndexError
    end.
Proof.
  intros Hpred Hprfs Hcs Hp Hr Hf.
  rewrite (report_score_eq _ _ _ _ _ _ _ _ _ _ Hpred Hprfs Hcs).
  set (s1 := set_scores _ s).
  rewrite (draw_outcome y y_pred s1 w cs Hcs).
  - rewrite ax_draw_start.
    destruct cs as [|c1 [|c2 [|c3 cs']]]; [done..|].
    by rewrite decide_False by (simpl; lia).
  - intros c Hc.
    destruct (score_lookup_scores_of s1 _ _ _ c eq_refl) as (Ep & Er & Ef).
    assert (∀ (arr : list Score), length cs ≤ length arr →
              is_Some (dict_get c (dict_of (zip cs arr)))) as Hkey.
    { intros arr Hlen. apply mem_dict_get, keys_dict_of_zip.
      by rewrite take_ge. }
    destruct (Hkey p Hp) as [vp Hvp], (Hkey r Hr) as [vr Hvr],
      (Hkey f Hf) as [vf Hvf].
    exists [vp; vr; vf], vp, vr, vf. by rewrite Ep, Er, Ef.
Qed.

(** X2.  When the library calls return and some name of [classes_] is
    not among its first [len(precision)] entries - distinct names and
    fewer scores than classes, as when the targets lack a class -
    [score] raises [KeyError] from [draw]: the axes are set, and no
    call to pyplot has been made. *)
Theorem score_missing_class_KeyError (X : Features) (y : Targets) (s : t)
    (w : pyplot) y_pred p r f sup cs c :
  ScoreVisualizer_predict (base s) X = inr y_pred →
  precision_recall_fscore_support y y_pred = inr (p, r, f, sup) →
  classes_ s = Some cs →
  c ∈ cs → c ∉ take (length p) cs →
  outcome (score X y s w) = inl KeyError ∧
  plot (score X y s w) = w ∧
  ax (base (attrs (score X y s w))) = Some (default (gca w) (ax (base s))).
Proof.
  intros Hpred Hprfs Hcs Hc Hnot.
  rewrite (report_score_eq _ _ _ _ _ _ _ _ _ _ Hpred Hprfs Hcs).
  set (s1 := set_scores _ s). rewrite report_draw_eq.
  change (classes_ s1) with (classes_ s). rewrite Hcs.
  destruct (fill_matrix_KeyError cs (draw_start s1 w) w
              [("precision", dict_of (zip cs p)); ("recall", dict_of (zip cs r));
               ("f1", dict_of (zip cs f))]%string [])
    as (s' & Hfill & Hbase).
  - unfold draw_start. by destruct (ax (base s1)).
  - done.
  - exists c. split; [done|]. intros row (vp & _ & _ & Hvp & _).
    rewrite score_lookup_draw_start in Hvp.
    destruct (score_lookup_scores_of s1 _ _ _ c eq_refl) as (Ep & _).
    rewrite Ep in Hvp. apply dict_get_Some_mem, keys_dict_of_zip in Hvp.
    done.
  - rewrite (bind_inl _ _ _ _ _ _ _ Hfill). unfold outcome, plot, attrs. simpl.
    split; [done|]. split; [done|]. rewrite Hbase.
    exact (ax_draw_start s1 w).
Qed.

Lemma report_score_without_classes X y s w y_pred p r f sup :
  ScoreVisualizer_predict (base s) X = inr y_pred →
  precision_recall_fscore_support y y_pred = inr (p, r, f, sup) →
  classes_ s = None →
  score X y s w = (inl TypeError, set_scores (scores_map [p; r; f]) s, w).
Proof.
  intros Hpred Hprfs Hcs.
  unfold score, bind, self, lib, assign, not_none, ret, raise.
  rewrite Hpred, Hprfs. cbn [classes_ set_scores]. by rewrite Hcs.
Qed.

(** X3.  [draw] starts the matrix afresh: what [self.matrix] held
    before has no effect on the outcome, on the attributes or on the
    calls made, so a second [score] does not add rows to the first. *)
Theorem draw_discards_matrix (y y_pred : Targets) (s : t) (w : pyplot)
    (m : list (list Score)) :
  draw y y_pred (set_matrix m s) w = draw y y_pred s w.
Proof.
  rewrite !report_draw_eq. cbn [classes_ set_matrix].
  assert (draw_start (set_matrix m s) w = draw_start s w) as ->; [|done].
  unfold draw_start. cbn [ax base set_matrix]. by destruct (ax (base s)).
Qed.

(** Whatever [draw] does after looking for the axes, [self.ax] then
    holds the axes given at construction, or [plt.gca()]. *)
Lemma report_ax_after_draw y y_pred s w :
  ax (base (attrs (draw y y_pred s w)))
    = Some (default (gca w) (ax (base s))).
Proof.
  rewrite report_draw_eq. destruct (classes_ s) as [cs|].
  - assert (keeps (fun s => ax (base s))
              (bind (for_each cs add_row) (fun _ => finish))) as Hk.
    { unfold add_row, finish, annotate_column, annotate_cell, scores_at. frame. }
    rewrite Hk. apply ax_draw_start.
  - apply ax_draw_start.
Qed.

Lemma score_rows_defined (p r f : list Score) (cs : list Label) c :
  length cs ≤ length p → length cs ≤ length r → length cs ≤ length f →
  c ∈ cs →
  ∃ vp vr vf,
    dict_get c (dict_of (zip cs p)) = Some vp ∧
    dict_get c (dict_of (zip cs r)) = Some vr ∧
    dict_get c (dict_of (zip cs f)) = Some vf.
Proof.
  intros Hp Hr Hf Hc.
  assert (∀ (arr : list Score), length cs ≤ length arr →
            is_Some (dict_get c (dict_of (zip cs arr)))) as Hkey.
  { intros arr Hlen. apply mem_dict_get, keys_dict_of_zip. by rewrite take_ge. }
  destruct (Hkey p Hp) as [vp Hvp], (Hkey r Hr) as [vr Hvr],
    (Hkey f Hf) as [vf Hvf].
  by exists vp, vr, vf.
Qed.

(** X5.  With distinct class names and score arrays that cover them,
    [score] leaves in [matrix] one row per class whose [i]-th row is
    the [i]-th precision, recall and f1, in this order - also when the
    annotation loop then raises [IndexError]. *)
Theorem score_matrix_rows (X : Features) (y : Targets) (s : t) (w : pyplot)
    y_pred p r f sup cs :
  ScoreVisualizer_predict (base s) X = inr y_pred →
  precision_recall_fscore_support y y_pred = inr (p, r, f, sup) →
  classes_ s = Some cs →
  NoDup cs →
  length cs ≤ length p → length cs ≤ length r → length cs ≤ length f →
  ∃ m,
    matrix (attrs (score X y s w)) = Some m ∧
    length m = length cs ∧
    ∀ i vp vr vf,
      i < length cs →
      p !! i = Some vp → r !! i = Some vr → f !! i = Some vf →
      m !! i = Some [vp; vr; vf].
Proof.
  intros Hpred Hprfs Hcs Hnd Hp Hr Hf.
  rewrite (report_score_eq _ _ _ _ _ _ _ _ _ _ Hpred Hprfs Hcs).
  remember (set_scores (scores_of (dict_of (zip cs p)) (dict_of (zip cs r))
                          (dict_of (zip cs f))) s) as s1 eqn:Hs1.
  assert (scores s1 = Some (scores_of (dict_of (zip cs p)) (dict_of (zip cs r))
                              (dict_of (zip cs f)))) as Hscores by (by subst s1).
  rewrite report_draw_eq.
  replace (classes_ s1) with (Some cs) by (by subst s1).
  destruct (fill_matrix_spec cs (draw_start s1 w) w [] eq_refl)
    as [(rows & Hrows & Hfill)|(e & s' & c & _ & Hc & Hno & _)]; cycle 1.
  { destruct (score_rows_defined p r f cs c Hp Hr Hf Hc)
      as (vp & vr & vf & Hvp & Hvr & Hvf).
    destruct (Hno [vp; vr; vf]). exists vp, vr, vf.
    rewrite !score_lookup_draw_start.
    destruct (score_lookup_scores_of s1 _ _ _ c Hscores) as (-> & -> & ->).
    done. }
  rewrite (bind_inr _ _ _ _ _ _ _ Hfill), finish_attrs. simpl app.
  exists rows. split; [done|]. split; [symmetry; by eapply Forall2_length|].
  intros i vp vr vf Hi Hpi Hri Hfi.
  destruct (lookup_lt_is_Some_2 cs i Hi) as [c Hci].
  destruct (Forall2_lookup_l _ _ _ _ _ Hrows Hci)
    as (row & Hrow & (vp' & vr' & vf' & Hvp & Hvr & Hvf & ->)).
  rewrite Hrow. rewrite !score_lookup_draw_start in Hvp, Hvr, Hvf.
  destruct (score_lookup_scores_of s1 _ _ _ c Hscores) as (Ep & Er & Ef).
  rewrite Ep in Hvp. rewrite Er in Hvr. rewrite Ef in Hvf.
  pose proof (maps_by_last_index_NoDup _ _ _ (dict_of_zip_last cs p) Hnd
                i c vp Hci Hpi) as Hvp2.
  pose proof (maps_by_last_index_NoDup _ _ _ (dict_of_zip_last cs r) Hnd
                i c vr Hci Hri) as Hvr2.
  pose proof (maps_by_last_index_NoDup _ _ _ (dict_of_zip_last cs f) Hnd
                i c vf Hci Hfi) as Hvf2.
  congruence.
Qed.

Lemma row_of_draw_start_inj s w c row p r f :
  row_of (draw_start s w) c row → row_of s c [p; r; f] → row = [p; r; f].
Proof.
  intros (p' & r' & f' & Hp' & Hr' & Hf' & ->) (p0 & r0 & f0 & Hp & Hr & Hf & [= -> -> ->]).
  rewrite score_lookup_draw_start in Hp', Hr', Hf'. congruence.
Qed.

Lemma for_each_calls {A} (l : list A) (body : A → M t unit)
    (g : A → list call) s w :
  (∀ x w0, x ∈ l → body x s w0 = (inr tt, s, called (g x) w0)) →
  for_each l body s w = (inr tt, s, called (flat_map g l) w).
Proof.
  revert w. induction l as [|x l IH]; intros w Hb.
  - simpl. unfold ret, called. simpl. rewrite app_nil_r. by destruct w.
  - rewrite for_each_cons, Hb by apply list_elem_of_here.
    rewrite IH by (intros x' w' Hx; apply Hb; by apply list_elem_of_further).
    simpl. by rewrite called_called.
Qed.

Lemma annotations_cons a m n column columns :
  annotations a m n (column :: columns)
    = annotations a m n [column] ++ annotations a m n columns.
Proof. unfold annotations. simpl. by rewrite app_nil_r. Qed.

Lemma annotate_column_calls s w cs m a column :
  drawn s cs m → ax (base s) = Some a → column < 3 →
  annotate_column column s w
    = (inr tt, s, called (annotations a m (length cs) [column]) w).
Proof.
  intros (_ & Hcs & Hm & Hlen & Hrows) Ha Hcol.
  unfold annotate_column, bind, self. rewrite Hcs. simpl.
  unfold annotations. simpl. rewrite app_nil_r.
  apply for_each_calls. intros row w0 Hrow.
  apply elem_of_seq in Hrow as [_ Hrow]. rewrite <- Hlen in Hrow.
  destruct (lookup_lt_is_Some_2 m row Hrow) as [r Hr].
  assert (length r = 3) as Hr3
    by (eapply Forall_lookup_1 in Hrows; [exact Hrows|exact Hr]).
  destruct (lookup_lt_is_Some_2 r column ltac:(lia)) as [v Hv].
  rewrite (annotate_cell_eq _ _ _ _ _ _ Ha Hm), Hr. simpl. by rewrite Hv.
Qed.

Lemma annotate_columns_calls s w cs m a columns :
  drawn s cs m → ax (base s) = Some a → Forall (fun c => c < 3) columns →
  for_each columns annotate_column s w
    = (inr tt, s, called (annotations a m (length cs) columns) w).
Proof.
  intros Hd Ha. revert w.
  induction columns as [|column columns IH]; intros w Hall.
  - simpl. unfold ret, called, annotations. simpl.
    rewrite app_nil_r. by destruct w.
  - apply Forall_cons in Hall as [Hc Hall].
    rewrite for_each_cons, (annotate_column_calls _ _ cs m a) by done.
    rewrite IH by done. by rewrite called_called, <- annotations_cons.
Qed.


(** [draw] on an instance whose classes all have their three scores *)
Lemma draw_run y y_pred s w cs :
  classes_ s = Some cs →
  (∀ c, c ∈ cs → ∃ row, row_of s c row) →
  ∃ rows,
    Forall2 (row_of s) cs rows ∧
    Forall (fun row => length row = 3) rows ∧
    draw y y_pred s w =
      if decide (length cs ≤ 2)
      then (match cs with
            | [] => inl TypeError
            | _ :: _ => inr (Some (default (gca w) (ax (base s))))
            end,
            set_matrix rows (draw_start s w),
            called (annotations (default (gca w) (ax (base s))) rows (length cs)
                      (seq 0 (length cs + 1))
                    ++ [plt_imshow rows (cmap s)]) w)
      else (inl IndexError, set_matrix rows (draw_start s w),
            called (annotations (default (gca w) (ax (base s))) rows (length cs)
                      (seq 0 3)) w).
Proof.
  intros Hcs Hall. rewrite report_draw_eq, Hcs.
  destruct (fill_matrix_spec cs (draw_start s w) w [] eq_refl)
    as [(rows & Hrows & Hfill)|(e & s' & c & _ & Hc & Hno & _)]; cycle 1.
  { destruct (Hall c Hc) as [row (p & r & f & ? & ? & ? & ?)].
    destruct (Hno row). exists p, r, f. by rewrite !score_lookup_draw_start. }
  exists rows.
  assert (Forall2 (row_of s) cs rows) as Hrows'.
  { eapply Forall2_impl; [exact Hrows|].
    intros c row (p & r & f & Hp & Hr & Hf & ->).
    rewrite !score_lookup_draw_start in Hp, Hr, Hf. by exists p, r, f. }
  assert (Forall (fun row => length row = 3) rows) as Hwidth.
  { clear -Hrows. induction Hrows as [|c row cs' rows' Hrow _ IH]; [done|].
    constructor; [|done]. by destruct Hrow as (? & ? & ? & _ & _ & _ & ->). }
  assert (length rows = length cs) as Hlen
    by (symmetry; by eapply Forall2_length).
  split; [done|]. split; [done|].
  rewrite (bind_inr _ _ _ _ _ _ _ Hfill). simpl app.
  set (a := default (gca w) (ax (base s))).
  set (s3 := set_matrix rows (draw_start s w)).
  assert (ax (base s3) = Some a) as Ha by apply ax_draw_start.
  assert (drawn s3 cs rows) as Hd.
  { split; [by rewrite Ha|].
    split; [unfold s3, draw_start; by destruct (ax (base s))|]. by split. }
  assert (cmap s3 = cmap s) as Hcmap
    by (unfold s3, draw_start; by destruct (ax (base s))).
  unfold finish. rewrite (bind_inr _ _ s3 w rows s3 w) by done.
  rewrite Hlen. case_decide as Hn.
  - assert (Forall (fun c => c < 3) (seq 0 (length cs + 1))) as Hcols
      by (apply Forall_forall; intros c Hc; apply elem_of_seq in Hc; lia).
    rewrite (bind_inr _ _ _ _ _ _ _
               (annotate_columns_calls s3 w cs rows a _ Hd Ha Hcols)).
    unfold bind, self, attr, plt, ret. cbn [matrix s3 set_matrix].
    rewrite Hcmap. inversion Hrows as [|c row cs' rows' _ _]; subst;
      cbn [refused]; by rewrite ?Ha, called_called.
  - replace (length cs + 1) with (3 + (length cs - 2)) by lia.
    rewrite seq_app.
    replace (length cs - 2) with (S (length cs - 3)) by lia. simpl seq.
    unfold bind at 1. rewrite for_each_app.
    rewrite (annotate_columns_calls s3 w cs rows a [0; 1; 2] Hd Ha)
      by (repeat constructor; lia).
    rewrite for_each_cons, (annotate_column_3 _ _ cs rows); [done|done|].
    intros ->. simpl in Hn. lia.
Qed.

Lemma annotations_no_image a (m : list (list Score)) n columns :
  existsb is_image (annotations a m n columns) = false.
Proof.
  unfold annotations. induction columns as [|column columns IH]; [done|].
  simpl. rewrite existsb_app, IH, orb_false_r. clear IH.
  induction (seq 0 n) as [|row rows IHr]; [done|].
  simpl. rewrite existsb_app, IHr, orb_false_r.
  by destruct (m !! row ≫= (.!! column)).
Qed.

(** X4.  [poof] after a [score] that has reached [draw] with all the
    scores of its classes.  The axes are set, so [poof] never returns
    [None], and it reaches [plt.show()] only with two classes: then it
    makes the six calls of [finalize], shows the plot and returns the
    axes.  With one class the heatmap is there, but [plt.xticks] gets
    two positions for three labels and raises [ValueError].  With no
    class or with three or more, [draw] has raised before any image was
    drawn, and [plt.colorbar()] raises [RuntimeError] unless pyplot
    held an image before [score], in which case [plt.xticks] raises. *)
Theorem poof_after_score (X : Features) (y : Targets) (s : t) (w : pyplot)
    y_pred p r f sup cs :
  ScoreVisualizer_predict (base s) X = inr y_pred →
  precision_recall_fscore_support y y_pred = inr (p, r, f, sup) →
  classes_ s = Some cs →
  length cs ≤ length p → length cs ≤ length r → length cs ≤ length f →
  poof (attrs (score X y s w)) (plot (score X y s w)) =
    match length cs with
    | 2 =>
        (inr (Some (default (gca w) (ax (base s)))), attrs (score X y s w),
         called (finalize_calls (attrs (score X y s w)) cs ++ [plt_show])
           (plot (score X y s w)))
    | 1 =>
        (inl ValueError, attrs (score X y s w),
         called (take 3 (finalize_calls (attrs (score X y s w)) cs))
           (plot (score X y s w)))
    | _ =>
        if image_drawn w
        then (inl ValueError, attrs (score X y s w),
              called (take 3 (finalize_calls (attrs (score X y s w)) cs))
                (plot (score X y s w)))
        else (inl RuntimeError, attrs (score X y s w),
              called (take 2 (finalize_calls (attrs (score X y s w)) cs))
                (plot (score X y s w)))
    end.
Proof.
  intros Hpred Hprfs Hcs Hp Hr Hf.
  rewrite (report_score_eq _ _ _ _ _ _ _ _ _ _ Hpred Hprfs Hcs).
  remember (set_scores (scores_of (dict_of (zip cs p)) (dict_of (zip cs r))
                          (dict_of (zip cs f))) s) as s1 eqn:Hs1.
  assert (scores s1 = Some (scores_of (dict_of (zip cs p)) (dict_of (zip cs r))
                              (dict_of (zip cs f)))) as Hscores by (by subst s1).
  assert (classes_ s1 = Some cs) as Hcs1 by (by subst s1).
  assert (ax (base s1) = ax (base s)) as Hax1 by (by subst s1).
  destruct (draw_run y y_pred s1 w cs Hcs1) as (rows & Hrows & _ & Hrun).
  { intros c Hc.
    destruct (score_rows_defined p r f cs c Hp Hr Hf Hc)
      as (vp & vr & vf & Hvp & Hvr & Hvf).
    exists [vp; vr; vf], vp, vr, vf.
    destruct (score_lookup_scores_of s1 _ _ _ c Hscores) as (-> & -> & ->).
    done. }
  assert (ax (base (attrs (draw y y_pred s1 w)))
          = Some (default (gca w) (ax (base s)))) as Ha
    by (rewrite report_ax_after_draw; by rewrite Hax1).
  assert (classes_ (attrs (draw y y_pred s1 w)) = Some cs) as Hcs'
    by (by rewrite draw_keeps_classes_).
  assert (image_drawn (plot (draw y y_pred s1 w)) =
          match length cs with
          | 1 | 2 => true
          | _ => image_drawn w
          end) as Himage.
  { rewrite Hrun. clear Hrun.
    inversion Hrows as [|c1 row1 cs1 rows1 _ Hrows1]; subst cs rows.
    - rewrite decide_True by (simpl; lia). unfold plot. simpl.
      by rewrite image_drawn_called, orb_false_r.
    - case_decide as Hn; unfold plot; cbn [snd];
        rewrite image_drawn_called, ?existsb_app, annotations_no_image.
      + simpl. rewrite orb_true_r.
        simpl in Hn. by destruct cs1 as [|c2 [|c3 cs3]]; [..|simpl in Hn; lia].
      + rewrite orb_false_r.
        simpl in Hn. destruct cs1 as [|c2 [|c3 cs3]]; simpl in *; [lia..|done]. }
  rewrite report_poof_eq, Ha, finalize_eq, Hcs', Himage.
  destruct cs as [|c1 [|c2 [|c3 cs3]]]; simpl length.
  - by destruct (image_drawn w).
  - done.
  - simpl. by rewrite called_called, Ha.
  - rewrite decide_False by (simpl; lia). by destruct (image_drawn w).
Qed.

(** X6.  What [draw] writes on the heatmap.  With one class it
    annotates precision and recall (columns 0 and 1) and leaves the f1
    cell without text; with two classes it annotates all six cells,
    column by column.  In both cases it then calls [plt.imshow] once on
    the matrix and returns the axes. *)
Theorem draw_annotations (y y_pred : Targets) (s : t) (w : pyplot) :
  (∀ c p r f,
     classes_ s = Some [c] → row_of s c [p; r; f] →
     outcome (draw y y_pred s w) = inr (Some (default (gca w) (ax (base s)))) ∧
     plot (draw y y_pred s w) =
       called [ax_text (default (gca w) (ax (base s))) 0 0 p;
               ax_text (default (gca w) (ax (base s))) 1 0 r;
               plt_imshow [[p; r; f]] (cmap s)] w) ∧
  (∀ c1 c2 p1 r1 f1 p2 r2 f2,
     classes_ s = Some [c1; c2] →
     row_of s c1 [p1; r1; f1] → row_of s c2 [p2; r2; f2] →
     outcome (draw y y_pred s w) = inr (Some (default (gca w) (ax (base s)))) ∧
     plot (draw y y_pred s w) =
       called [ax_text (default (gca w) (ax (base s))) 0 0 p1;
               ax_text (default (gca w) (ax (base s))) 0 1 p2;
               ax_text (default (gca w) (ax (base s))) 1 0 r1;
               ax_text (default (gca w) (ax (base s))) 1 1 r2;
               ax_text (default (gca w) (ax (base s))) 2 0 f1;
               ax_text (default (gca w) (ax (base s))) 2 1 f2;
               plt_imshow [[p1; r1; f1]; [p2; r2; f2]] (cmap s)] w).
Proof.
  assert (∀ c row row', row_of s c row → row_of s c row' → row = row') as Hinj.
  { intros c row row' (p & r & f & Hp & Hr & Hf & ->)
      (p' & r' & f' & Hp' & Hr' & Hf' & ->). congruence. }
  split.
  - intros c p r f Hcs Hrow.
    destruct (draw_run y y_pred s w [c] Hcs) as (rows & Hrows & _ & ->).
    { intros c' Hc'. apply list_elem_of_singleton in Hc' as ->. by eexists. }
    apply Forall2_cons_inv_l in Hrows as (row & rows' & Hr1 & Hnil & ->).
    apply Forall2_nil_inv_l in Hnil as ->.
    by rewrite (Hinj _ _ _ Hr1 Hrow).
  - intros c1 c2 p1 r1 f1 p2 r2 f2 Hcs Hrow1 Hrow2.
    destruct (draw_run y y_pred s w [c1; c2] Hcs) as (rows & Hrows & _ & ->).
    { intros c' Hc'. apply elem_of_cons in Hc' as [->|Hc']; [by eexists|].
      apply list_elem_of_singleton in Hc' as ->. by eexists. }
    apply Forall2_cons_inv_l in Hrows as (row1 & rows' & Hr1 & Hrows & ->).
    apply Forall2_cons_inv_l in Hrows as (row2 & rows'' & Hr2 & Hnil & ->).
    apply Forall2_nil_inv_l in Hnil as ->.
    by rewrite (Hinj _ _ _ Hr1 Hrow1), (Hinj _ _ _ Hr2 Hrow2).
Qed.

End edges.
End ClassificationReportEdges.

(** ** ROCAUC: a run of score on a new instance *)

Module ROCAUCEdges.
Import ROCAUC ROCAUCFacts.
Section edges.
Context `{Libs}.

Lemma rocauc_ax_draw_start s w :
  ax (base (draw_start s w)) = Some (default (gca w) (ax (base s))).
Proof. unfold draw_start. by destruct (ax (base s)) eqn:E; simpl; rewrite ?E. Qed.

Lemma rocauc_ax_after_draw y y_pred s w :
  ax (base (attrs (draw y y_pred s w)))
    = Some (default (gca w) (ax (base s))).
Proof.
  unfold draw, bind, self, assign, plt_gca, attr, subscript, plt, ret, raise.
  destruct s as [b c f tp th a]; simpl.
  destruct (ax b) eqn:E; simpl;
    destruct f, tp, (dict_get "roc"%string c), a,
      (dict_get "diagonal"%string c); simpl; by rewrite ?E.
Qed.

(** X8.  On an instance as [__init__] returns it, [score] returns the
    axes (the ones given, else [plt.gca()]) whenever [predict],
    [roc_curve] and [auc] return: the two colour lookups of [draw]
    cannot fail.  It makes exactly two calls: the curve, in the colour
    given as [roc_color] or the default, labelled with the area, and
    the diagonal, in the colour given as [diagonal_color] or the
    default. *)
Theorem score_new_instance (model : Model) (ax0 : option Axes)
    (kwargs : Kwargs) (s : t) (X : Features) (y : Targets) (w : pyplot)
    y_pred f tp th a :
  __init__ model ax0 kwargs = inr s →
  ScoreVisualizer_predict (base s) X = inr y_pred →
  roc_curve y y_pred = inr (f, tp, th) →
  auc f tp = inr a →
  outcome (score X y s w) = inr (Some (default (gca w) ax0)) ∧
  plot (score X y s w) =
    called [plt_plot f tp (pop "roc_color" (py_str "#2B94E9") kwargs)
              ("AUC = " +:+ format_2f a);
            plt_plot_fmt [0; 1]%Z [0; 1]%Z "m--"
              (pop "diagonal_color" (py_str "#666666") kwargs)] w.
Proof.
  intros Hinit Hpred Hroc Hauc.
  rewrite (rocauc_score_eq _ _ _ _ _ _ _ _ _ Hpred Hroc Hauc).
  unfold __init__, ClassificationScoreVisualizer.__init__ in Hinit.
  destruct (negb (isclassifier model)); [done|]. injection Hinit as <-.
  unfold draw, bind, self, assign, plt_gca, attr, subscript, plt, ret.
  simpl. destruct ax0; simpl; by rewrite called_called.
Qed.
End edges.
End ROCAUCEdges.

(** ** ClassBalance: bars, ticks and limits *)

Module ClassBalanceEdges.
Import ClassBalance ClassBalanceFacts.
Section edges.
Context `{Libs}.

Lemma balance_ax_draw_start s w :
  ax (base (draw_start s w)) = Some (default (gca w) (ax (base s))).
Proof. unfold draw_start. by destruct (ax (base s)) eqn:E; simpl; rewrite ?E. Qed.

Lemma balance_ax_after_draw s w :
  ax (base (attrs (draw s w))) = Some (default (gca w) (ax (base s))).
Proof.
  rewrite balance_draw_eq.
  destruct (classes_ s); [destruct (support s)|]; apply balance_ax_draw_start.
Qed.

Lemma foldl_max_spec (x : Z) (xs : list Z) :
  foldl Z.max x xs ∈ x :: xs ∧ Forall (fun v => (v ≤ foldl Z.max x xs)%Z) (x :: xs).
Proof.
  revert x. induction xs as [|v xs IH]; intros x; simpl.
  - split; [apply list_elem_of_here|]. constructor; [lia|constructor].
  - destruct (IH (Z.max x v)) as [Hin Hall]. split.
    + apply elem_of_cons in Hin as [Heq|Hin].
      * rewrite Heq. destruct (Z.max_spec x v) as [[_ ->]|[_ ->]].
        -- apply list_elem_of_further, list_elem_of_here.
        -- apply list_elem_of_here.
      * by do 2 apply list_elem_of_further.
    + apply Forall_cons in Hall as [Hm Hall].
      constructor; [lia|]. constructor; [lia|done].
Qed.

(** X9.  With distinct class names and one support count per name,
    [score] returns the axes and draws one bar per class, in the order
    of [classes_], bar [i] having the height of the [i]-th support
    count: [support] lists the names with their counts in that order. *)
Theorem score_bars (X : Features) (y : Targets) (s : t) (w : pyplot)
    y_pred p r f sup cs :
  ScoreVisualizer_predict (base s) X = inr y_pred →
  precision_recall_fscore_support y y_pred = inr (p, r, f, sup) →
  classes_ s = Some cs →
  NoDup cs → length cs = length sup →
  outcome (score X y s w) = inr (Some (default (gca w) (ax (base s)))) ∧
  support (attrs (score X y s w)) = Some (zip cs sup) ∧
  plot (score X y s w) =
    called [plt_bar (length cs) sup (py_slice (colors s) (length cs))] w.
Proof.
  intros Hpred Hprfs Hcs Hnd Hlen.
  rewrite (balance_score_eq _ _ _ _ _ _ _ _ _ _ Hpred Hprfs Hcs).
  destruct (dict_of_zip_NoDup cs sup Hnd Hlen) as (Hd & Hkeys & Hvalues).
  rewrite balance_draw_eq. cbn [classes_ support colors set_support set_scores].
  rewrite Hcs. unfold outcome, attrs, plot. simpl.
  split; [|split].
  - f_equal. exact (balance_ax_draw_start (set_support _ (set_scores _ s)) w).
  - unfold draw_start. cbn [ax base set_support set_scores].
    destruct (ax (base s)); simpl; by rewrite Hd.
  - rewrite Hvalues, Hd, length_zip_with_l_eq by done. done.
Qed.

(** X10.  With distinct class names, one support count per name and at
    least one class, [poof] after [score] returns the axes: it labels
    the ticks with the class names in the order of [classes_], sets the
    upper limit of the y axis to the largest support count plus a tenth
    of it, and shows the plot. *)
Theorem poof_after_score_bars (X : Features) (y : Targets) (s : t)
    (w : pyplot) y_pred p r f sup cs :
  ScoreVisualizer_predict (base s) X = inr y_pred →
  precision_recall_fscore_support y y_pred = inr (p, r, f, sup) →
  classes_ s = Some cs →
  NoDup cs → length cs = length sup → cs ≠ [] →
  ∃ cmax,
    cmax ∈ sup ∧ Forall (fun v => (v ≤ cmax)%Z) sup ∧
    poof (attrs (score X y s w)) (plot (score X y s w)) =
      (inr (Some (default (gca w) (ax (base s)))), attrs (score X y s w),
       called [plt_xticks (length cs) cs;
               plt_ylim 0 (inject_Z cmax + inject_Z cmax * (1 # 10))%Q;
               plt_show] (plot (score X y s w))).
Proof.
  intros Hpred Hprfs Hcs Hnd Hlen Hne.
  rewrite (balance_score_eq _ _ _ _ _ _ _ _ _ _ Hpred Hprfs Hcs).
  destruct (dict_of_zip_NoDup cs sup Hnd Hlen) as (Hd & Hkeys & Hvalues).
  remember (set_support (dict_of (zip cs sup)) (set_scores (p, r, f, sup) s))
    as s1 eqn:Hs1.
  assert (ax (base (attrs (draw s1 w)))
          = Some (default (gca w) (ax (base s)))) as Hax
    by (rewrite balance_ax_after_draw; by subst s1).
  assert (support (attrs (draw s1 w)) = Some (dict_of (zip cs sup))) as Hsup.
  { pose proof (draw_keeps_support s1 w) as Hk. simpl in Hk.
    injection Hk as -> _ _ _. by subst s1. }
  rewrite balance_poof_eq, Hax, Hsup, Hvalues, Hkeys.
  destruct sup as [|x xs]; [by destruct cs|].
  destruct (foldl_max_spec x xs) as [Hin Hall].
  exists (foldl Z.max x xs). split; [done|]. split; [done|].
  rewrite Hd, length_zip_with_l_eq by done. done.
Qed.

(** X11.  After [score], whatever [classes_] and the support array
    are, no name occurs twice among the keys of [support], and the keys
    are the names among the first [len(support array)] entries of
    [classes_]: there are at most as many bars as classes and as
    counts. *)
Theorem score_support_keys (X : Features) (y : Targets) (s : t) (w : pyplot)
    y_pred p r f sup cs :
  ScoreVisualizer_predict (base s) X = inr y_pred →
  precision_recall_fscore_support y y_pred = inr (p, r, f, sup) →
  classes_ s = Some cs →
  ∃ d, support (attrs (score X y s w)) = Some d ∧
       NoDup (keys d) ∧
       (∀ c, c ∈ keys d ↔ c ∈ take (length sup) cs) ∧
       length d ≤ length cs ∧ length d ≤ length sup.
Proof.
  intros Hpred Hprfs Hcs.
  rewrite (balance_score_eq _ _ _ _ _ _ _ _ _ _ Hpred Hprfs Hcs).
  pose proof (draw_keeps_support
                (set_support (dict_of (zip cs sup)) (set_scores (p, r, f, sup) s)) w)
    as Hk.
  simpl in Hk. injection Hk as -> _ _ _.
  exists (dict_of (zip cs sup)).
  pose proof (keys_dict_of_NoDup (zip cs sup)) as Hnd.
  assert (keys (dict_of (zip cs sup)) ⊆ take (length sup) cs) as Hsub
    by (intros c; apply keys_dict_of_zip).
  assert (length (dict_of (zip cs sup)) ≤ length (take (length sup) cs)) as Hlen.
  { replace (length (dict_of (zip cs sup)))
      with (length (keys (dict_of (zip cs sup))))
      by (unfold keys; apply length_fmap).
    by apply submseteq_length, NoDup_submseteq. }
  rewrite length_take in Hlen.
  split; [done|]. split; [done|]. split; [apply keys_dict_of_zip|]. lia.
Qed.
End edges.
End ClassBalanceEdges.

(** ** What the methods of the three visualizers leave alone *)

Section frames.
Context `{Libs}.

Lemma report_draw_frame y y_pred :
  keeps (fun s => (estimator (ClassificationReport.base s),
                   name (ClassificationReport.base s),
                   ClassificationReport.cmap s,
                   ClassificationReport.classes_ s,
                   ClassificationReport.scores s))
    (ClassificationReport.draw y y_pred).
Proof.
  unfold ClassificationReport.draw, ClassificationReport.scores_at. frame.
Qed.

Lemma rocauc_draw_frame y y_pred :
  keeps (fun s => (estimator (ROCAUC.base s), name (ROCAUC.base s),
                   ROCAUC.colors s, ROCAUC.fpr s, ROCAUC.tpr s,
                   ROCAUC.thresholds s, ROCAUC.roc_auc s))
    (ROCAUC.draw y y_pred).
Proof. unfold ROCAUC.draw. frame. Qed.

Lemma balance_draw_frame :
  keeps (fun s => (estimator (ClassBalance.base s), name (ClassBalance.base s),
                   ClassBalance.colors s, ClassBalance.classes_ s,
                   ClassBalance.scores s, ClassBalance.support s))
    ClassBalance.draw.
Proof. unfold ClassBalance.draw. frame. Qed.

(** X12.  [score] and [draw] of the three visualizers, returning or
    raising, leave the estimator, the name, the colour settings and
    [classes_] as they were; [draw] also leaves the stored metrics
    ([scores], the curve and its area, [support]) as they were. *)
Theorem score_draw_frame :
  (∀ X y, keeps (fun s => (estimator (ClassificationReport.base s),
                           name (ClassificationReport.base s),
                           ClassificationReport.cmap s,
                           ClassificationReport.classes_ s))
            (ClassificationReport.score X y)) ∧
  (∀ X y, keeps (fun s => (estimator (ROCAUC.base s), name (ROCAUC.base s),
                           ROCAUC.colors s))
            (ROCAUC.score X y)) ∧
  (∀ X y, keeps (fun s => (estimator (ClassBalance.base s),
                           name (ClassBalance.base s),
                           ClassBalance.colors s, ClassBalance.classes_ s))
            (ClassBalance.score X y)) ∧
  (∀ y y_pred,
     keeps (fun s => (estimator (ClassificationReport.base s),
                      name (ClassificationReport.base s),
                      ClassificationReport.cmap s,
                      ClassificationReport.classes_ s,
                      ClassificationReport.scores s))
       (ClassificationReport.draw y y_pred)) ∧
  (∀ y y_pred,
     keeps (fun s => (estimator (ROCAUC.base s), name (ROCAUC.base s),
                      ROCAUC.colors s, ROCAUC.fpr s, ROCAUC.tpr s,
                      ROCAUC.thresholds s, ROCAUC.roc_auc s))
       (ROCAUC.draw y y_pred)) ∧
  keeps (fun s => (estimator (ClassBalance.base s), name (ClassBalance.base s),
                   ClassBalance.colors s, ClassBalance.classes_ s,
                   ClassBalance.scores s, ClassBalance.support s))
    ClassBalance.draw.
Proof.
  split; [|split; [|split; [|split; [|split]]]].
  - intros X y.
    pose proof (report_draw_frame y) as Hd.
    assert (∀ y_pred, keeps (fun s => (estimator (ClassificationReport.base s),
                                       name (ClassificationReport.base s),
                                       ClassificationReport.cmap s,
                                       ClassificationReport.classes_ s))
                        (ClassificationReport.draw y y_pred)) as Hdraw.
    { intros y_pred s0 w0. specialize (Hd y_pred s0 w0). simpl in *. congruence. }
    unfold ClassificationReport.score. frame.
  - intros X y.
    assert (∀ y_pred, keeps (fun s => (estimator (ROCAUC.base s),
                                       name (ROCAUC.base s), ROCAUC.colors s))
                        (ROCAUC.draw y y_pred)) as Hdraw.
    { intros y_pred s0 w0. pose proof (rocauc_draw_frame y y_pred s0 w0) as Hd.
      simpl in *. congruence. }
    unfold ROCAUC.score. frame.
  - intros X y.
    assert (keeps (fun s => (estimator (ClassBalance.base s),
                             name (ClassBalance.base s),
                             ClassBalance.colors s, ClassBalance.classes_ s))
              ClassBalance.draw) as Hdraw.
    { intros s0 w0. pose proof (balance_draw_frame s0 w0) as Hd.
      simpl in *. congruence. }
    unfold ClassBalance.score. frame.
  - apply report_draw_frame.
  - apply rocauc_draw_frame.
  - apply balance_draw_frame.
Qed.

(** X13.  [fit] of [ClassificationReport] and of [ClassBalance], also
    when the base [fit] or [estimator.classes_] raises, leaves the
    colour settings and the stored metrics as they were, and leaves
    [classes_] as it was when that is a list: once set, the class names
    are not refreshed by fitting again. *)
Theorem fit_frame :
  (∀ X y (s : ClassificationReport.t) w,
     ClassificationReport.cmap (attrs (ClassificationReport.fit X y s w))
       = ClassificationReport.cmap s ∧
     ClassificationReport.scores (attrs (ClassificationReport.fit X y s w))
       = ClassificationReport.scores s ∧
     ClassificationReport.matrix (attrs (ClassificationReport.fit X y s w))
       = ClassificationReport.matrix s ∧
     (is_Some (ClassificationReport.classes_ s) →
      ClassificationReport.classes_ (attrs (ClassificationReport.fit X y s w))
        = ClassificationReport.classes_ s)) ∧
  (∀ X y (s : ClassBalance.t) w,
     ClassBalance.colors (attrs (ClassBalance.fit X y s w))
       = ClassBalance.colors s ∧
     ClassBalance.scores (attrs (ClassBalance.fit X y s w))
       = ClassBalance.scores s ∧
     ClassBalance.support (attrs (ClassBalance.fit X y s w))
       = ClassBalance.support s ∧
     (is_Some (ClassBalance.classes_ s) →
      ClassBalance.classes_ (attrs (ClassBalance.fit X y s w))
        = ClassBalance.classes_ s)).
Proof.
  split; intros X y s w.
  - rewrite ClassificationReportFacts.report_fit_eq.
    destruct (ScoreVisualizer_fit _ X y) as [e|b]; [done|].
    destruct (ClassificationReport.classes_ s) as [cs|] eqn:Hcs.
    + unfold attrs. simpl. by rewrite Hcs.
    + destruct (estimator_classes_ (estimator b));
        unfold attrs; simpl; repeat split; try done; by intros [? [=]].
  - rewrite ClassBalanceFacts.balance_fit_eq.
    destruct (ScoreVisualizer_fit _ X y) as [e|b]; [done|].
    destruct (ClassBalance.classes_ s) as [cs|] eqn:Hcs.
    + unfold attrs. simpl. by rewrite Hcs.
    + destruct (estimator_classes_ (estimator b));
        unfold attrs; simpl; repeat split; try done; by intros [? [=]].
Qed.
End frames.

(** ** Axes, library errors and a score before fit *)

Section errors.
Context `{Libs}.

(** X14.  [draw] of each of the three visualizers, returning or
    raising, leaves in [self.ax] the axes the instance already had, or
    [plt.gca()] where it had none: axes given at construction are never
    replaced. *)
Theorem draw_sets_ax :
  (∀ y y_pred (s : ClassificationReport.t) w,
     ax (ClassificationReport.base (attrs (ClassificationReport.draw y y_pred s w)))
       = Some (default (gca w) (ax (ClassificationReport.base s)))) ∧
  (∀ y y_pred (s : ROCAUC.t) w,
     ax (ROCAUC.base (attrs (ROCAUC.draw y y_pred s w)))
       = Some (default (gca w) (ax (ROCAUC.base s)))) ∧
  (∀ (s : ClassBalance.t) w,
     ax (ClassBalance.base (attrs (ClassBalance.draw s w)))
       = Some (default (gca w) (ax (ClassBalance.base s)))).
Proof.
  split; [|split].
  - apply ClassificationReportEdges.report_ax_after_draw.
  - apply ROCAUCEdges.rocauc_ax_after_draw.
  - apply ClassBalanceEdges.balance_ax_after_draw.
Qed.

(** X15.  An exception raised by [predict] or by the metric function
    ([precision_recall_fscore_support], [roc_curve]) comes out of
    [score] as it is, with every attribute and pyplot as they were.
    When [auc] raises, [ROCAUC.score] raises the same exception with
    [fpr], [tpr] and [thresholds] assigned, [roc_auc] not, and nothing
    drawn. *)
Theorem score_library_error (X : Features) (y : Targets) (e : exn) :
  (∀ (s : ClassificationReport.t) w,
     ScoreVisualizer_predict (ClassificationReport.base s) X = inl e ∨
     (∃ y_pred, ScoreVisualizer_predict (ClassificationReport.base s) X = inr y_pred ∧
                precision_recall_fscore_support y y_pred = inl e) →
     ClassificationReport.score X y s w = (inl e, s, w)) ∧
  (∀ (s : ClassBalance.t) w,
     ScoreVisualizer_predict (ClassBalance.base s) X = inl e ∨
     (∃ y_pred, ScoreVisualizer_predict (ClassBalance.base s) X = inr y_pred ∧
                precision_recall_fscore_support y y_pred = inl e) →
     ClassBalance.score X y s w = (inl e, s, w)) ∧
  (∀ (s : ROCAUC.t) w,
     ScoreVisualizer_predict (ROCAUC.base s) X = inl e ∨
     (∃ y_pred, ScoreVisualizer_predict (ROCAUC.base s) X = inr y_pred ∧
                roc_curve y y_pred = inl e) →
     ROCAUC.score X y s w = (inl e, s, w)) ∧
  (∀ (s : ROCAUC.t) w y_pred f tp th,
     ScoreVisualizer_predict (ROCAUC.base s) X = inr y_pred →
     roc_curve y y_pred = inr (f, tp, th) →
     auc f tp = inl e →
     ROCAUC.score X y s w = (inl e, ROCAUC.set_curve f tp th s, w)).
Proof.
  split; [|split; [|split]].
  - intros s w [Hpred|(y_pred & Hpred & Hm)];
      unfold ClassificationReport.score, bind, self, lib, raise, ret;
      rewrite Hpred; [done|by rewrite Hm].
  - intros s w [Hpred|(y_pred & Hpred & Hm)];
      unfold ClassBalance.score, bind, self, lib, raise, ret;
      rewrite Hpred; [done|by rewrite Hm].
  - intros s w [Hpred|(y_pred & Hpred & Hm)];
      unfold ROCAUC.score, bind, self, lib, raise, ret;
      rewrite Hpred; [done|by rewrite Hm].
  - intros s w y_pred f tp th Hpred Hroc Hauc.
    unfold ROCAUC.score, bind, self, lib, raise, ret, assign, attr.
    rewrite Hpred, Hroc. cbn [ROCAUC.fpr ROCAUC.tpr ROCAUC.set_curve].
    by rewrite Hauc.
Qed.

(** X16.  When [classes_] is [None] - no classes given and [fit] not
    run - and the library calls return, [score] of [ClassificationReport]
    and of [ClassBalance] raises [TypeError] before [draw]: the metrics
    are stored, nothing is drawn and the axes are as they were, so a
    [poof] on an instance without axes still returns [None]. *)
Theorem score_without_classes (X : Features) (y : Targets) y_pred p r f sup :
  precision_recall_fscore_support y y_pred = inr (p, r, f, sup) →
  (∀ (s : ClassificationReport.t) w,
     ScoreVisualizer_predict (ClassificationReport.base s) X = inr y_pred →
     ClassificationReport.classes_ s = None →
     ClassificationReport.score X y s w =
       (inl TypeError,
        ClassificationReport.set_scores
          (ClassificationReport.scores_map [p; r; f]) s, w) ∧
     (ax (ClassificationReport.base s) = None →
      outcome (ClassificationReport.poof
                 (attrs (ClassificationReport.score X y s w))
                 (plot (ClassificationReport.score X y s w))) = inr None)) ∧
  (∀ (s : ClassBalance.t) w,
     ScoreVisualizer_predict (ClassBalance.base s) X = inr y_pred →
     ClassBalance.classes_ s = None →
     ClassBalance.score X y s w =
       (inl TypeError, ClassBalance.set_scores (p, r, f, sup) s, w) ∧
     (ax (ClassBalance.base s) = None →
      outcome (ClassBalance.poof (attrs (ClassBalance.score X y s w))
                 (plot (ClassBalance.score X y s w))) = inr None)).
Proof.
  intros Hprfs. split; intros s w Hpred Hcs.
  - rewrite (ClassificationReportEdges.report_score_without_classes
               _ _ _ _ _ _ _ _ _ Hpred Hprfs Hcs).
    split; [done|]. intros Hax.
    rewrite ClassificationReportFacts.report_poof_eq. unfold attrs. simpl.
    by rewrite Hax.
  - assert (ClassBalance.score X y s w
            = (inl TypeError, ClassBalance.set_scores (p, r, f, sup) s, w)) as ->.
    { unfold ClassBalance.score, bind, self, lib, assign, not_none, raise, ret.
      rewrite Hpred, Hprfs. cbn [ClassBalance.classes_ ClassBalance.set_scores].
      by rewrite Hcs. }
    split; [done|]. intros Hax.
    rewrite ClassBalanceFacts.balance_poof_eq. unfold attrs. simpl.
    by rewrite Hax.
Qed.
End errors.

(** * Runs on the small instance *)

Import Fixture.

Example init_report :
  ClassificationReport.__init__ classifier None (Some ["a"; "b"]%string) []
    = inr (report None (Some ["a"; "b"]%string)).
Proof. reflexivity. Qed.

Example init_rocauc : ROCAUC.__init__ classifier (Some 3) [] = inr (rocauc (Some 3)).
Proof. reflexivity. Qed.

Example init_balance :
  ClassBalance.__init__ classifier (Some 3) None [] = inr (balance (Some 3) None).
Proof. reflexivity. Qed.

Example init_regressor :
  ClassBalance.__init__ regressor None None [] = inl YellowbrickTypeError.
Proof. reflexivity. Qed.

Example metrics_two_labels :
  precision_recall_fscore_support y2 X2
    = inr ([1; 11]%Z, [2; 12]%Z, [3; 13]%Z, [1; 2]%Z).
Proof. reflexivity. Qed.

Example score_two_classes :
  ClassificationReport.score X2 y2 (report None (Some ["a"; "b"]%string)) plt0 =
    (inr (Some 7),
     {| ClassificationReport.base := visualizer (Some 7);
        ClassificationReport.cmap := "ddlheatmap";
        ClassificationReport.classes_ := Some ["a"; "b"]%string;
        ClassificationReport.scores :=
          Some (ClassificationReport.scores_of
                  [("a", 1); ("b", 11)]%string%Z [("a", 2); ("b", 12)]%string%Z
                  [("a", 3); ("b", 13)]%string%Z);
        ClassificationReport.matrix := Some [[1; 2; 3]; [11; 12; 13]]%Z |},
     called [ax_text 7 0 0 1%Z; ax_text 7 0 1 11%Z;
             ax_text 7 1 0 2%Z; ax_text 7 1 1 12%Z;
             ax_text 7 2 0 3%Z; ax_text 7 2 1 13%Z;
             plt_imshow [[1; 2; 3]; [11; 12; 13]]%Z "ddlheatmap"] plt0).
Proof. vm_compute. reflexivity. Qed.

(** C4, on three classes.  With [classes_ = ['a', 'b', 'c']] the matrix
    has three rows of three scores.  The annotation loop writes the nine
    cells of columns 0, 1 and 2, then goes on to column 3, since
    [range(len(self.matrix)+1)] is [0..3], and [self.matrix[0][3]] is
    past the end of the row: [draw], and with it [score], raises
    [IndexError]. *)
Theorem draw_three_classes_IndexError :
  let s := report None (Some ["a"; "b"; "c"]%string) in
  let r := ClassificationReport.score X3 y3 s plt0 in
  ClassificationReport.matrix (attrs r)
    = Some [[1; 2; 3]; [11; 12; 13]; [21; 22; 23]]%Z ∧
  ([[1; 2; 3]; [11; 12; 13]; [21; 22; 23]]%Z !! 0) ≫= (.!! 3) = None ∧
  outcome r = inl IndexError ∧
  calls (plot r) =
    [ax_text 7 0 0 1%Z; ax_text 7 0 1 11%Z; ax_text 7 0 2 21%Z;
     ax_text 7 1 0 2%Z; ax_text 7 1 1 12%Z; ax_text 7 1 2 22%Z;
     ax_text 7 2 0 3%Z; ax_text 7 2 1 13%Z; ax_text 7 2 2 23%Z].
Proof. vm_compute. done. Qed.

Lemma init_raises_iff_not_classifier_witness :
  ClassificationReport.__init__ regressor None None [] = inl YellowbrickTypeError ∧
  ∃ v, ROCAUC.__init__ classifier (Some 3) [] = inr v.
Proof.
  pose proof (init_raises_iff_not_classifier regressor None None [])
    as (_ & Hreport & _).
  pose proof (init_raises_iff_not_classifier classifier (Some 3) None [])
    as (_ & _ & _ & _ & Hclassifier).
  split.
  - apply Hreport. reflexivity.
  - apply Hclassifier. reflexivity.
Defined.

(** C2 as worded fails when a class name is repeated: with
    [classes=['a', 'a']] the dict for ['precision'] is [{'a': 11}], so
    the entry 0 of [classes_] is not mapped to the entry 0 of the
    precision array, which is 1. *)
Lemma score_scores_repeated_name :
  let s := report None (Some ["a"; "a"]%string) in
  ScoreVisualizer_predict (ClassificationReport.base s) X2 = inr X2 ∧
  precision_recall_fscore_support y2 X2
    = inr ([1; 11]%Z, [2; 12]%Z, [3; 13]%Z, [1; 2]%Z) ∧
  outcome (ClassificationReport.score X2 y2 s plt0) = inr (Some 7) ∧
  ClassificationReport.scores (attrs (ClassificationReport.score X2 y2 s plt0))
    = Some (ClassificationReport.scores_of
              [("a", 11)]%string%Z [("a", 12)]%string%Z [("a", 13)]%string%Z) ∧
  ¬ ClassificationReport.scores_by_index
      (attrs (ClassificationReport.score X2 y2 s plt0))
      ["a"; "a"]%string [1; 11]%Z [2; 12]%Z [3; 13]%Z.
Proof.
  repeat split; try (vm_compute; reflexivity).
  intros (dp & dr & df & Hs & Hp & _).
  vm_compute in Hs. injection Hs as <- _ _.
  specialize (Hp 0 "a"%string 1%Z eq_refl eq_refl). vm_compute in Hp. done.
Qed.

Lemma score_scores_witness :
  ClassificationReport.scores_by_index
    (attrs (ClassificationReport.score X2 y2
              (report None (Some ["a"; "b"]%string)) plt0))
    ["a"; "b"]%string [1; 11]%Z [2; 12]%Z [3; 13]%Z.
Proof.
  refine (proj2 (ClassificationReportFacts.score_scores X2 y2
                   (report None (Some ["a"; "b"]%string)) plt0
                   X2 [1; 11]%Z [2; 12]%Z [3; 13]%Z [1; 2]%Z ["a"; "b"]%string
                   eq_refl eq_refl eq_refl) _).
  compute_done.
Defined.

Lemma draw_matrix_witness :
  let r := ClassificationReport.score X2 y2
             (report None (Some ["a"; "b"]%string)) plt0 in
  ∃ m, ClassificationReport.matrix
         (attrs (ClassificationReport.draw y2 X2 (attrs r) (plot r))) = Some m ∧
       Forall2 (ClassificationReport.row_of
                  (attrs (ClassificationReport.draw y2 X2 (attrs r) (plot r))))
         ["a"; "b"]%string m.
Proof.
  intros r.
  destruct (ClassificationReportFacts.draw_matrix y2 X2 (attrs r) (plot r))
    as (cs & m & Hcs & _ & Hm & Hrows).
  - left. exists (Some 7). vm_compute. reflexivity.
  - injection Hcs as <-. by exists m.
Defined.

Lemma score_curve_witness :
  ROCAUC.fpr (attrs (ROCAUC.score X2 y2 (rocauc None) plt0)) = Some [0; 50; 100]%Z ∧
  ROCAUC.tpr (attrs (ROCAUC.score X2 y2 (rocauc None) plt0)) = Some [0; 80; 100]%Z ∧
  ROCAUC.thresholds (attrs (ROCAUC.score X2 y2 (rocauc None) plt0))
    = Some [2; 1; 0]%Z ∧
  ROCAUC.roc_auc (attrs (ROCAUC.score X2 y2 (rocauc None) plt0)) = Some 65%Z.
Proof.
  exact (proj2 (ROCAUCFacts.score_curve X2 y2 (rocauc None) plt0 X2
                  [0; 50; 100]%Z [0; 80; 100]%Z [2; 1; 0]%Z 65%Z
                  eq_refl eq_refl eq_refl)).
Defined.

Lemma score_support_witness :
  ∃ pairs,
    pairs !! 1 = Some ("b"%string, 2%Z) ∧
    ClassBalance.support
      (attrs (ClassBalance.score X2 y2 (balance None (Some ["a"; "b"]%string)) plt0))
      = Some (dict_of pairs) ∧
    dict_get "b"%string (dict_of pairs) = Some 2%Z.
Proof.
  edestruct (ClassBalanceFacts.score_support X2 y2
               (balance None (Some ["a"; "b"]%string)) plt0)
    as (pairs & Hpairs & Hsupport & _ & Hindex); [reflexivity..|].
  exists pairs. split; [by apply Hpairs|]. split; [done|].
  apply (Hindex ltac:(compute_done) 1); done.
Defined.

Lemma score_returns_draw_poof_finalizes_witness :
  ax (ClassificationReport.base
        (attrs (ClassificationReport.score X2 y2
                  (report None (Some ["a"; "b"]%string)) plt0))) = Some 7 ∧
  ax (ROCAUC.base (attrs (ROCAUC.score X2 y2 (rocauc None) plt0))) = Some 7 ∧
  ax (ClassBalance.base
        (attrs (ClassBalance.score X2 y2
                  (balance (Some 3) (Some ["a"; "b"]%string)) plt0))) = Some 3 ∧
  (let r := ClassificationReport.score X2 y2
              (report None (Some ["a"; "b"]%string)) plt0 in
   calls (plot (ClassificationReport.poof (attrs r) (plot r))) =
     calls (plot r)
     ++ ClassificationReport.finalize_calls (attrs r) ["a"; "b"]%string
     ++ [plt_show]).
Proof.
  destruct (@score_returns_draw_poof_finalizes types libs)
    as (Hreport & Hrocauc & Hbalance & Hpoof).
  split; [|split; [|split]].
  - destruct (Hreport X2 y2 (report None (Some ["a"; "b"]%string)) plt0 (Some 7))
      as (_ & <- & _); [vm_compute|]; reflexivity.
  - destruct (Hrocauc X2 y2 (rocauc None) plt0 (Some 7))
      as (_ & <- & _); [vm_compute|]; reflexivity.
  - destruct (Hbalance X2 y2 (balance (Some 3) (Some ["a"; "b"]%string)) plt0
                (Some 3)) as (_ & <- & _); [vm_compute|]; reflexivity.
  - intros r. rewrite (Hpoof (attrs r) (plot r) 7 eq_refl). reflexivity.
Defined.



Lemma fit_returns_self_sets_classes_witness :
  (∃ s', ClassificationReport.fit X2 y2 (report None None) plt0 = (inr s', s', plt0) ∧
         ClassificationReport.classes_ s' = Some ["a"; "b"]%string) ∧
  (∃ s', ClassBalance.fit X2 y2 (balance None (Some ["x"; "y"]%string)) plt0
           = (inr s', s', plt0) ∧
         ClassBalance.classes_ s' = Some ["x"; "y"]%string).
Proof.
  destruct (@fit_returns_self_sets_classes types libs) as (Hreport & Hbalance).
  split.
  - destruct (Hreport X2 y2 (report None None) plt0 (visualizer None) eq_refl
                ["a"; "b"]%string eq_refl) as (s' & Hrun & _ & Hclasses).
    by exists s'.
  - destruct (Hbalance X2 y2 (balance None (Some ["x"; "y"]%string)) plt0
                (visualizer None) eq_refl) as (s' & Hrun & _ & Hclasses).
    by exists s'.
Defined.

(** ** Runs for the further properties *)

Import Scored.

Lemma score_outcome_by_class_count_witness :
  outcome (ClassificationReport.score X3 y3
             (report None (Some ["a"; "b"; "c"]%string)) plt0) = inl IndexError ∧
  outcome (ClassificationReport.score X2 y2
             (report (Some 3) (Some ["a"; "b"]%string)) plt0) = inr (Some 3) ∧
  outcome (ClassificationReport.score X2 y2
             (report (Some 3) (Some [])) plt0) = inl TypeError.
Proof.
  split; [|split].
  - etransitivity.
    + eapply (ClassificationReportEdges.score_outcome_by_class_count X3 y3);
        [reflexivity..|simpl; lia|simpl; lia|simpl; lia].
    + reflexivity.
  - etransitivity.
    + eapply (ClassificationReportEdges.score_outcome_by_class_count X2 y2);
        [reflexivity..|simpl; lia|simpl; lia|simpl; lia].
    + reflexivity.
  - etransitivity.
    + eapply (ClassificationReportEdges.score_outcome_by_class_count X2 y2);
        [reflexivity..|simpl; lia|simpl; lia|simpl; lia].
    + reflexivity.
Defined.

Lemma score_missing_class_KeyError_witness :
  outcome (ClassificationReport.score X2 y2
             (report None (Some ["a"; "b"; "c"]%string)) plt0) = inl KeyError.
Proof.
  eapply (ClassificationReportEdges.score_missing_class_KeyError X2 y2
            (report None (Some ["a"; "b"; "c"]%string)) plt0
            _ _ _ _ _ _ "c"%string);
    [reflexivity..|compute_done|compute_done].
Defined.

Lemma score_matrix_rows_witness :
  ∃ m, ClassificationReport.matrix
         (attrs (ClassificationReport.score X3 y3
                   (report None (Some ["a"; "b"; "c"]%string)) plt0)) = Some m ∧
       m !! 2 = Some [21; 22; 23]%Z.
Proof.
  edestruct (ClassificationReportEdges.score_matrix_rows X3 y3
               (report None (Some ["a"; "b"; "c"]%string)) plt0)
    as (m & Hm & _ & Hrows);
    [reflexivity..|compute_done|simpl; lia|simpl; lia|simpl; lia|].
  exists m. split; [done|]. apply Hrows; [simpl; lia|reflexivity..].
Defined.

Lemma draw_annotations_witness :
  plot (ClassificationReport.draw y2 X2 (report2 ["a"]%string) plt0) =
    called [ax_text 7 0 0 1%Z; ax_text 7 1 0 2%Z;
            plt_imshow [[1; 2; 3]]%Z "ddlheatmap"] plt0 ∧
  outcome (ClassificationReport.draw y2 X2 (report2 ["a"; "b"]%string) plt0)
    = inr (Some 7).
Proof.
  split.
  - eapply (ClassificationReportEdges.draw_annotations y2 X2
              (report2 ["a"]%string) plt0); [reflexivity|].
    exists 1%Z, 2%Z, 3%Z. by vm_compute.
  - eapply (ClassificationReportEdges.draw_annotations y2 X2
              (report2 ["a"; "b"]%string) plt0); [reflexivity| |].
    + exists 1%Z, 2%Z, 3%Z. by vm_compute.
    + exists 11%Z, 12%Z, 13%Z. by vm_compute.
Defined.


Lemma poof_after_score_witness :
  (let r := ClassificationReport.score X3 y3
              (report None (Some ["a"; "b"; "c"]%string)) plt0 in
   outcome (ClassificationReport.poof (attrs r) (plot r)) = inl RuntimeError) ∧
  (let r := ClassificationReport.score X2 y2
              (report None (Some ["a"; "b"]%string)) plt0 in
   outcome (ClassificationReport.poof (attrs r) (plot r)) = inr (Some 7)) ∧
  (let r := ClassificationReport.score X2 y2
              (report None (Some ["a"]%string)) plt0 in
   outcome (ClassificationReport.poof (attrs r) (plot r)) = inl ValueError).
Proof.
  split; [|split]; intros r; unfold r.
  - rewrite (ClassificationReportEdges.poof_after_score X3 y3
               (report None (Some ["a"; "b"; "c"]%string)) plt0 X3
               [1; 11; 21]%Z [2; 12; 22]%Z [3; 13; 23]%Z [2; 1; 1]%Z
               ["a"; "b"; "c"]%string);
      [reflexivity..|simpl; lia|simpl; lia|simpl; lia].
  - rewrite (ClassificationReportEdges.poof_after_score X2 y2
               (report None (Some ["a"; "b"]%string)) plt0 X2
               [1; 11]%Z [2; 12]%Z [3; 13]%Z [1; 2]%Z ["a"; "b"]%string);
      [reflexivity..|simpl; lia|simpl; lia|simpl; lia].
  - rewrite (ClassificationReportEdges.poof_after_score X2 y2
               (report None (Some ["a"]%string)) plt0 X2
               [1; 11]%Z [2; 12]%Z [3; 13]%Z [1; 2]%Z ["a"]%string);
      [reflexivity..|simpl; lia|simpl; lia|simpl; lia].
Defined.

Lemma score_new_instance_witness :
  let s := {| ROCAUC.base := visualizer (Some 3);
              ROCAUC.colors := [("roc", "red"); ("diagonal", "#666666")]%string;
              ROCAUC.fpr := None; ROCAUC.tpr := None;
              ROCAUC.thresholds := None; ROCAUC.roc_auc := None |} in
  ROCAUC.__init__ classifier (Some 3) [("roc_color", "red")]%string = inr s ∧
  outcome (ROCAUC.score X2 y2 s plt0) = inr (Some 3) ∧
  plot (ROCAUC.score X2 y2 s plt0) =
    called [plt_plot [0; 50; 100]%Z [0; 80; 100]%Z "red" "AUC = 65.00";
            plt_plot_fmt [0; 1]%Z [0; 1]%Z "m--" "#666666"] plt0.
Proof.
  intros s.
  destruct (ROCAUCEdges.score_new_instance classifier (Some 3)
              [("roc_color", "red")]%string s X2 y2 plt0 X2
              [0; 50; 100]%Z [0; 80; 100]%Z [2; 1; 0]%Z 65%Z)
    as [Houtcome Hplot]; [reflexivity..|].
  split; [reflexivity|]. split.
  - rewrite Houtcome. reflexivity.
  - rewrite Hplot. reflexivity.
Defined.

Lemma score_bars_witness :
  plot (ClassBalance.score X2 y2 (balance None (Some ["a"; "b"]%string)) plt0)
    = called [plt_bar 2 [1; 2]%Z "paired"] plt0.
Proof.
  edestruct (ClassBalanceEdges.score_bars X2 y2
               (balance None (Some ["a"; "b"]%string)) plt0)
    as (_ & _ & Hplot); [reflexivity..|compute_done|reflexivity|].
  rewrite Hplot. reflexivity.
Defined.

Lemma poof_after_score_bars_witness :
  ∃ cmax,
    outcome (ClassBalance.poof
               (attrs (ClassBalance.score X2 y2
                         (balance None (Some ["a"; "b"]%string)) plt0))
               (plot (ClassBalance.score X2 y2
                        (balance None (Some ["a"; "b"]%string)) plt0)))
      = inr (Some 7) ∧
    cmax ∈ [1; 2]%Z.
Proof.
  edestruct (ClassBalanceEdges.poof_after_score_bars X2 y2
               (balance None (Some ["a"; "b"]%string)) plt0)
    as (cmax & Hin & _ & Hpoof);
    [reflexivity..|compute_done|reflexivity|done|].
  exists cmax. split; [by rewrite Hpoof|done].
Defined.

Lemma score_support_keys_witness :
  ∃ d, ClassBalance.support
         (attrs (ClassBalance.score X2 y2
                   (balance None (Some ["a"; "a"; "b"]%string)) plt0)) = Some d ∧
       length d ≤ 2.
Proof.
  edestruct (ClassBalanceEdges.score_support_keys X2 y2
               (balance None (Some ["a"; "a"; "b"]%string)) plt0)
    as (d & Hd & _ & _ & _ & Hlen); [reflexivity..|].
  by exists d.
Defined.

Lemma fit_frame_witness :
  ClassBalance.classes_
    (attrs (ClassBalance.fit X2 y2 (balance None (Some ["x"]%string)) plt0))
    = Some ["x"]%string ∧
  ClassificationReport.classes_
    (attrs (ClassificationReport.fit X2 y2 (report None (Some ["x"]%string)) plt0))
    = Some ["x"]%string.
Proof.
  destruct (@fit_frame types libs) as (Hreport & Hbalance).
  split.
  - destruct (Hbalance X2 y2 (balance None (Some ["x"]%string)) plt0)
      as (_ & _ & _ & Hclasses).
    apply Hclasses. by eexists.
  - destruct (Hreport X2 y2 (report None (Some ["x"]%string)) plt0)
      as (_ & _ & _ & Hclasses).
    apply Hclasses. by eexists.
Defined.

Lemma score_library_error_witness :
  @ClassificationReport.score types Strict.libs [] y2 (report None None) plt0
    = (inl ValueError, report None None, plt0) ∧
  @ClassBalance.score types Strict.libs X3 y2 (balance None None) plt0
    = (inl ValueError, balance None None, plt0) ∧
  @ROCAUC.score types Strict.libs X3 y3 (rocauc None) plt0
    = (inl ValueError, rocauc None, plt0) ∧
  @ROCAUC.score types Strict.libs ["a"]%string ["a"]%string (rocauc None) plt0
    = (inl ValueError, ROCAUC.set_curve [0]%Z [100]%Z [1]%Z (rocauc None), plt0).
Proof.
  split; [|split; [|split]].
  - apply (@score_library_error types Strict.libs [] y2 ValueError).
    left. reflexivity.
  - apply (@score_library_error types Strict.libs X3 y2 ValueError).
    right. exists X3. split; reflexivity.
  - apply (@score_library_error types Strict.libs X3 y3 ValueError).
    right. exists X3. split; reflexivity.
  - apply (@score_library_error types Strict.libs ["a"]%string ["a"]%string
             ValueError) with (y_pred := ["a"]%string); reflexivity.
Defined.

Lemma score_without_classes_witness :
  outcome (ClassificationReport.score X2 y2 (report None None) plt0)
    = inl TypeError ∧
  outcome (ClassBalance.poof
             (attrs (ClassBalance.score X2 y2 (balance None None) plt0))
             (plot (ClassBalance.score X2 y2 (balance None None) plt0)))
    = inr None.
Proof.
  destruct (@score_without_classes types libs X2 y2 X2
              [1; 11]%Z [2; 12]%Z [3; 13]%Z [1; 2]%Z eq_refl)
    as (Hreport & Hbalance).
  split.
  - destruct (Hreport (report None None) plt0 eq_refl eq_refl) as [-> _].
    reflexivity.
  - destruct (Hbalance (balance None None) plt0 eq_refl eq_refl) as [_ Hpoof].
    apply Hpoof. reflexivity.
Defined.
